(** * there-goes-an-airplane: the nearest-flight locator

    A shallow embedding of the two service variants of the repository
    ([src/main.go], which resolves metadata through CSV tables, and
    [src/unnamed/part_000], which resolves it through the feed's click
    handler) and the properties of their shared core: the geodetic to
    Cartesian transform, the distance metric, the feed decoder and the
    linear-scan selector.

    Conventions.
    - [float64] is Rocq's primitive binary64 [float]; [+ - * /], [sqrt] and
      the comparisons are the IEEE 754 operations, evaluated one at a time
      (no fused multiply-add).
    - [math.Sin], [math.Cos] and [math.Pow] belong to Go's library, not to
      the repository: they are the fields of the class [GoMath], and
      [GoMathSpec] records the few facts of their documentation that the
      proofs use.  [strconv.ParseFloat], [json.Unmarshal] and the network
      are the fields of the class [World].
    - Go's [int] is the 64-bit integer, carried as a [Z] in range.
    - A map is carried as the list of its entries in the order a [range]
      visits them.
    - A function that may panic or call [log.Fatal] returns an [outcome]. *)

From Stdlib Require Import ZArith List String Ascii Floats Bool Lia Permutation.
Import ListNotations.

Set Warnings "-inexact-float,-register-all".

Local Open Scope string_scope.
Local Open Scope float_scope.

(** ** The Go runtime the services rely on *)

Module Go.

(** The two run-time panics the decoder can raise. *)
Inductive panic : Type :=
| TypeAssertion      (* interface conversion: x.(T) on a value that is not a T *)
| IndexOutOfRange.   (* s[i] with i >= len(s) *)

(** How a call ends: with a value, with a run-time panic, or with
    [log.Fatal], which exits the process. *)
Inductive outcome (A : Type) : Type :=
| Ok (a : A)
| Panic (p : panic)
| Fatal.
Arguments Ok {A} a.
Arguments Panic {A} p.
Arguments Fatal {A}.

Definition bind {A B : Type} (c : outcome A) (k : A -> outcome B) : outcome B :=
  match c with
  | Ok a => k a
  | Panic p => Panic p
  | Fatal => Fatal
  end.

Definition returned {A : Type} (c : outcome A) : bool :=
  match c with Ok _ => true | _ => false end.

(** What [json.Unmarshal] stores in an [interface{}]: nil, bool, float64,
    string, []interface{} or map[string]interface{}.  A map is carried as
    its entries in the order a [range] over it visits them; Go leaves that
    order unspecified, so a statement about a map holds for every list. *)
Inductive value : Type :=
| VNil
| VBool (b : bool)
| VFloat64 (f : float)
| VString (s : string)
| VSlice (l : list value)
| VMap (m : list (string * value)).

(** [v.(map[string]interface{})], [v.([]interface{})], [v.(float64)] and
    [v.(string)]: the one-result form, which panics on any other value. *)
Definition assertMap (v : value) : outcome (list (string * value)) :=
  match v with VMap m => Ok m | _ => Panic TypeAssertion end.

Definition assertSlice (v : value) : outcome (list value) :=
  match v with VSlice l => Ok l | _ => Panic TypeAssertion end.

Definition assertFloat64 (v : value) : outcome float :=
  match v with VFloat64 f => Ok f | _ => Panic TypeAssertion end.

Definition assertString (v : value) : outcome string :=
  match v with VString s => Ok s | _ => Panic TypeAssertion end.

(** [s[i]] *)
Definition index (s : list value) (i : nat) : outcome value :=
  match nth_error s i with
  | Some v => Ok v
  | None => Panic IndexOutOfRange
  end.

(** [delete(m, key)] *)
Definition delete (key : string) (m : list (string * value)) : list (string * value) :=
  filter (fun kv => negb (String.eqb (fst kv) key)) m.

(** [m[key]] on a [map[string]string]: the zero value when the key is absent. *)
Fixpoint mapIndex (m : list (string * string)) (key : string) : string :=
  match m with
  | [] => ""
  | (k, v) :: rest => if String.eqb k key then v else mapIndex rest key
  end.

Definition minInt : Z := - 2 ^ 63.
Definition maxInt : Z := 2 ^ 63 - 1.

(** The integer part of a float, its fraction discarded; none for an
    infinity or a NaN. *)
Definition truncate (f : float) : option Z :=
  match Prim2SF f with
  | S754_zero _ => Some 0%Z
  | S754_finite s m e =>
      let q := Z.shiftl (Z.pos m) e in
      Some (if s then (- q)%Z else q)
  | S754_infinity _ | S754_nan => None
  end.

(** [int(f)].  The language fixes the result when the truncated value fits
    an [int]; otherwise it is implementation-specific, and the model takes
    the amd64 answer, the smallest [int]. *)
Definition int (f : float) : Z :=
  match truncate f with
  | Some z => if ((minInt <=? z) && (z <=? maxInt))%Z then z else minInt
  | None => minInt
  end.

(** [float64(n)]: the nearest float, ties to even. *)
Definition float64 (n : Z) : float :=
  SF2Prim (binary_normalize prec emax n 0 false).

(** [math.Inf(1)] and [math.Sqrt] *)
Definition Inf : float := infinity.
Definition Sqrt (x : float) : float := sqrt x.

End Go.

Import Go.

Declare Scope outcome_scope.
Delimit Scope outcome_scope with outcome.
Notation "x <- c ;; k" := (bind c (fun x => k))
  (at level 61, c at next level, right associativity) : outcome_scope.
Local Open Scope outcome_scope.

(** [math.Sin], [math.Cos], [math.Pow] *)
Class GoMath : Type := {
  Sin : float -> float;
  Cos : float -> float;
  Pow : float -> float -> float
}.

(** Where [math.Pow(x, 2)] is the correctly rounded square: at a zero, at a
    NaN, and wherever the square cannot fall in the subnormal range. *)
Definition squares (x : float) : bool :=
  (x =? 0) || is_nan x || (1 <=? abs x).

(** The documented behaviour of Go's math package that the proofs use. *)
Class GoMathSpec (M : GoMath) : Prop := {
  Sin_zero : Sin 0 = 0;
  Cos_zero : Cos 0 = 1;
  Pow_two : forall x, squares x = true -> Pow x 2 = x * x
}.

(** ** The shared core: unit conversion, metric, transform *)

Section Core.
Context {M : GoMath}.

Definition feetToMeters (feet : float) : float := 0.3048 * feet.

Definition distance (x1 y1 z1 x2 y2 z2 : float) : float :=
  Sqrt (Pow (x2 - x1) 2 + Pow (y2 - y1) 2 + Pow (z2 - z1) 2).

Definition pointToCartesian (longitude latitude altitude : float)
  : float * float * float :=
  let N := fun phi : float =>
    6378137 / Sqrt (1 - 0.006694379990197619 * Pow (Sin phi) 2) in
  let x := (N latitude + altitude) * Cos latitude * Cos longitude in
  let y := (N latitude + altitude) * Cos latitude * Sin longitude in
  let z := (0.9933056200098024 * N latitude + altitude) * Sin latitude in
  (x, y, z).

End Core.

(** ** The linear scan

    [getClosestPlane] ([src/main.go]) and [getClosestFlight]
    ([src/unnamed/part_000]) run the same loop over their own record type;
    [scan] is that loop, over any record with the three position fields. *)

Section Scan.
Context {M : GoMath} {flight : Type}.
Variables (longitudeOf latitudeOf : flight -> float) (altitudeOf : flight -> Z).

(** The value of [distanceToFlight] for a candidate: its altitude enters the
    transform as [float64(flight.altitude)]. *)
Definition distanceToFlight (x y z : float) (f : flight) : float :=
  let '(xFlight, yFlight, zFlight) :=
    pointToCartesian (longitudeOf f) (latitudeOf f) (float64 (altitudeOf f)) in
  distance x y z xFlight yFlight zFlight.

(** One turn of the loop on the pair [(minDistance, closestPlane)]. *)
Definition scanStep (x y z : float) (state : float * flight) (f : flight)
  : float * flight :=
  let d := distanceToFlight x y z f in
  if d <? fst state then (d, f) else state.

Definition scan (x y z : float) (zero : flight) (flights : list flight) : flight :=
  snd (fold_left (scanStep x y z) flights (Inf, zero)).

(** The loop as the spec words it: the candidate's altitude is converted to
    meters before the transform.  No function of the repository does this;
    the definition is here to be compared with [scan]. *)
Definition distanceToFlight_spec (x y z : float) (f : flight) : float :=
  let '(xFlight, yFlight, zFlight) :=
    pointToCartesian (longitudeOf f) (latitudeOf f)
                     (feetToMeters (float64 (altitudeOf f))) in
  distance x y z xFlight yFlight zFlight.

Definition scan_spec (x y z : float) (zero : flight) (flights : list flight) : flight :=
  snd (fold_left
         (fun state f =>
            let d := distanceToFlight_spec x y z f in
            if d <? fst state then (d, f) else state)
         flights (Inf, zero)).

End Scan.

(** ** What surrounds the services: the network and Go's library *)

Inductive error : Type :=
| ErrSyntax    (* strconv.ErrSyntax *)
| ErrRange     (* strconv.ErrRange *)
| ErrDecode.   (* any error of json.Unmarshal *)

(** An HTTP request as the handlers read it: the method, and the query
    string as key and value pairs. *)
Record request : Type := {
  Method : string;
  Query : list (string * string)
}.

(** [request.URL.Query().Get(key)]: the first value of the key, or the empty
    string when the key is absent. *)
Fixpoint queryGet (q : list (string * string)) (key : string) : string :=
  match q with
  | [] => ""
  | (k, v) :: rest => if String.eqb k key then v else queryGet rest key
  end.

(** What the handler wrote: the status code and the body. *)
Record response : Type := {
  Status : Z;
  Body : string
}.

Definition StatusOK : Z := 200.
Definition StatusMethodNotAllowed : Z := 405.

(** [http.Error(w, msg, code)] *)
Definition httpError (msg : string) (code : Z) : response :=
  {| Status := code; Body := msg ++ String "010" "" |}.

(** [fmt.Fprint(w, body)] on a fresh response writer; its error is only logged. *)
Definition Fprint (body : string) : response :=
  {| Status := StatusOK; Body := body |}.

(** The decoded click-handler document of [src/unnamed/part_000]
    ([FlightDetailsJSON], its four leaves). *)
Record FlightDetailsJSON : Type := {
  AircraftModelText : string;
  AirlineName : string;
  AirportOriginName : string;
  AirportDestinationName : string
}.

(** Everything outside the repository that a request touches. *)
Class World : Type := {
  (* strconv.ParseFloat(s, 64) *)
  ParseFloat : string -> float * option error;
  (* fmt.Sprintf of the feed URL with its four %f bounds, in argument order *)
  feedURL : float -> float -> float -> float -> string;
  (* the GET with the session cookie, body read to the end; any failure is
     log.Fatal *)
  httpGet : string -> outcome (list Byte.byte);
  (* json.Unmarshal(bytes, &response) with response an interface{}: what it
     left in response, and its error *)
  Unmarshal : list Byte.byte -> value * option error;
  (* json.Unmarshal(bytes, &response) with response a FlightDetailsJSON *)
  UnmarshalDetails : list Byte.byte -> FlightDetailsJSON * option error;
  (* the three tables main.go loads at start-up *)
  icaoAirlines : list (string * string);
  icaoTypes : list (string * string);
  iataAirports : list (string * string)
}.

(** ** The HTTP exchange

    [httpGet] of [src/unnamed/part_000], statement by statement;
    [getFlights] of [src/main.go] runs the same statements inline.  The
    three calls into [net/http] and [ioutil] are the fields of [Network],
    each with the error it may return. *)

Inductive result (A : Type) : Type :=
| Done (a : A)
| Failed (e : error).
Arguments Done {A} a.
Arguments Failed {A} e.

(** What the services set on a [*http.Request]: its method, its URL and its
    Cookie header (empty until set). *)
Record Request : Type := {
  reqMethod : string;
  reqURL : string;
  reqCookie : string
}.

Class Network : Type := {
  Response : Type;
  (* the error of http.NewRequest(method, url, nil), if any *)
  NewRequestError : string -> string -> option error;
  (* client.Do(req) *)
  Do : Request -> result Response;
  (* ioutil.ReadAll(resp.Body) *)
  ReadAll : Response -> result (list Byte.byte);
  (* the package variable fr24idCookie, set by getCookie at start-up *)
  fr24idCookie : string
}.

Module Exchange.

Section Exchange.
Context {N : Network}.

(** [http.NewRequest(method, url, nil)] *)
Definition NewRequest (method url : string) : result Request :=
  match NewRequestError method url with
  | Some e => Failed e
  | None => Done {| reqMethod := method; reqURL := url; reqCookie := "" |}
  end.

(** [req.Header.Set("Cookie", cookie)] *)
Definition setCookie (req : Request) (cookie : string) : Request :=
  {| reqMethod := reqMethod req; reqURL := reqURL req; reqCookie := cookie |}.

Definition httpGet (url : string) : outcome (list Byte.byte) :=
  match NewRequest "GET" url with
  | Failed _ => Fatal
  | Done req =>
      let req := setCookie req fr24idCookie in
      match Do req with
      | Failed _ => Fatal
      | Done resp =>
          match ReadAll resp with
          | Failed _ => Fatal
          | Done body => Ok body
          end
      end
  end.

End Exchange.

End Exchange.

(** A world whose requests go through [Exchange.httpGet]. *)
Definition onNetwork (N : Network) (W : World) : World := {|
  ParseFloat := ParseFloat;
  feedURL := feedURL;
  httpGet := Exchange.httpGet;
  Unmarshal := Unmarshal;
  UnmarshalDetails := UnmarshalDetails;
  icaoAirlines := icaoAirlines;
  icaoTypes := icaoTypes;
  iataAirports := iataAirports
|}.

(** ** Start-up: the lookup tables and the session cookie *)

(** [m[key] = v] on a [map[string]string]: the entry of the key is replaced. *)
Definition mapAssign (key v : string) (m : list (string * string))
  : list (string * string) :=
  (key, v) :: filter (fun kv => negb (String.eqb (fst kv) key)) m.

(** [line[i]] on a [[]string] *)
Definition field (line : list string) (i : nat) : outcome string :=
  match nth_error line i with
  | Some s => Ok s
  | None => Panic IndexOutOfRange
  end.

(** The loop of [mapRecords] ([src/main.go]): [hashTable] is the map built
    so far. *)
Fixpoint rangeRecords (records : list (list string)) (hashTable : list (string * string))
  : outcome (list (string * string)) :=
  match records with
  | [] => Ok hashTable
  | line :: rest =>
      key <- field line 0 ;;
      v <- field line 1 ;;
      rangeRecords rest (mapAssign key v hashTable)
  end.

Definition mapRecords (records : list (list string)) : outcome (list (string * string)) :=
  rangeRecords records [].

(** [strings.Split(s, sep)] for a separator of one character: the first
    piece and the pieces after it. *)
Fixpoint splitPieces (sep : ascii) (s : string) : string * list string :=
  match s with
  | EmptyString => (EmptyString, [])
  | String c rest =>
      let '(piece, pieces) := splitPieces sep rest in
      if Ascii.eqb c sep then (EmptyString, piece :: pieces)
      else (String c piece, pieces)
  end.

Definition Split (s : string) (sep : ascii) : list string :=
  let '(piece, pieces) := splitPieces sep s in piece :: pieces.

(** [getCookie], in both files: [setCookie] stands for [http.Get] followed
    by [resp.Header.Values("set-cookie")], [Fatal] when the GET fails. *)
Definition getCookie (setCookie : outcome (list string)) : outcome string :=
  cookies <- setCookie ;;
  first <- field cookies 0 ;;
  field (Split first ";"%char) 0.

(** ** [src/main.go]: metadata from the CSV tables *)

Module MainGo.

Record flightData : Type := {
  icaoType : string;
  icaoAirline : string;
  iataDeparting : string;
  iataArriving : string;
  longitude : float;
  latitude : float;
  altitude : Z
}.

(** [flightData{}] *)
Definition zero : flightData := {|
  icaoType := ""; icaoAirline := ""; iataDeparting := ""; iataArriving := "";
  longitude := 0; latitude := 0; altitude := 0
|}.

(** The body of the [range] loop of [parseFlightsJSON], one entry. *)
Definition decodePlane (planeData : value) : outcome flightData :=
  status <- assertSlice planeData ;;
  s1 <- index status 1 ;; lat <- assertFloat64 s1 ;;
  s2 <- index status 2 ;; lon <- assertFloat64 s2 ;;
  s4 <- index status 4 ;; alt <- assertFloat64 s4 ;;
  s8 <- index status 8 ;; type <- assertString s8 ;;
  s11 <- index status 11 ;; departing <- assertString s11 ;;
  s12 <- index status 12 ;; arriving <- assertString s12 ;;
  s18 <- index status 18 ;; airline <- assertString s18 ;;
  Ok {| icaoType := type; icaoAirline := airline;
        iataDeparting := departing; iataArriving := arriving;
        longitude := lon; latitude := lat; altitude := int alt |}.

(** The [range] loop: [flights] is the slice built so far. *)
Fixpoint rangeFlights (flightsData : list (string * value)) (flights : list flightData)
  : outcome (list flightData) :=
  match flightsData with
  | [] => Ok flights
  | (_, planeData) :: rest =>
      plane <- decodePlane planeData ;;
      rangeFlights rest (flights ++ [plane])%list
  end.

(** [parseFlightsJSON] from the value [json.Unmarshal] left in [response]. *)
Definition decodeFlights (response : value) : outcome (list flightData) :=
  flightsData <- assertMap response ;;
  let flightsData := delete "full_count" flightsData in
  let flightsData := delete "version" flightsData in
  rangeFlights flightsData [].

Section Service.
Context {M : GoMath} {W : World}.

(** The error of [json.Unmarshal] is logged and dropped. *)
Definition parseFlightsJSON (bytes : list Byte.byte) : outcome (list flightData) :=
  decodeFlights (fst (Unmarshal bytes)).

Definition latitudeDelta : float := 0.2.

Definition getFlights (longitude latitude : float) : outcome (list flightData) :=
  let longitudeDelta := latitudeDelta * Cos latitude in
  let url := feedURL (latitude + latitudeDelta) (latitude - latitudeDelta)
                     (longitude - longitudeDelta) (longitude + longitudeDelta) in
  body <- httpGet url ;;
  parseFlightsJSON body.

(** The loop of [getClosestPlane] on the flights it fetched. *)
Definition closest (x y z : float) (flights : list flightData) : flightData :=
  scan longitude latitude altitude x y z zero flights.

Definition getClosestPlane (longitude latitude altitude : float) : outcome flightData :=
  let '(x, y, z) := pointToCartesian longitude latitude (feetToMeters altitude) in
  flights <- getFlights longitude latitude ;;
  Ok (closest x y z flights).

(** [fmt.Sprintf("%s %s from %s to %s", ...)] *)
Definition formatFlight (flight : flightData) : string :=
  let airline := mapIndex icaoAirlines (icaoAirline flight) in
  let aircraft := mapIndex icaoTypes (icaoType flight) in
  let departing := mapIndex iataAirports (iataDeparting flight) in
  let arriving := mapIndex iataAirports (iataArriving flight) in
  airline ++ " " ++ aircraft ++ " from " ++ departing ++ " to " ++ arriving.

Definition handler (r : request) : outcome response :=
  if String.eqb (Method r) "GET" then
    let longitude := fst (ParseFloat (queryGet (Query r) "longitude")) in
    let latitude := fst (ParseFloat (queryGet (Query r) "latitude")) in
    let altitude := fst (ParseFloat (queryGet (Query r) "altitude")) in
    flight <- getClosestPlane longitude latitude altitude ;;
    Ok (Fprint (formatFlight flight))
  else
    Ok (httpError "Incorrect method" StatusMethodNotAllowed).

End Service.

End MainGo.

(** ** [src/unnamed/part_000]: metadata from the click handler *)

Module Part0.

Record flightPosition : Type := {
  fr24id : string;
  longitude : float;
  latitude : float;
  altitude : Z
}.

(** [flightPosition{}] *)
Definition zero : flightPosition :=
  {| fr24id := ""; longitude := 0; latitude := 0; altitude := 0 |}.

(** The body of the [range] loop of [parseFlightsJSON], one entry. *)
Definition decodePlane (id : string) (planeData : value) : outcome flightPosition :=
  status <- assertSlice planeData ;;
  s1 <- index status 1 ;; lat <- assertFloat64 s1 ;;
  s2 <- index status 2 ;; lon <- assertFloat64 s2 ;;
  s4 <- index status 4 ;; alt <- assertFloat64 s4 ;;
  Ok {| fr24id := id; longitude := lon; latitude := lat; altitude := int alt |}.

Fixpoint rangeFlights (flightsData : list (string * value)) (flights : list flightPosition)
  : outcome (list flightPosition) :=
  match flightsData with
  | [] => Ok flights
  | (id, planeData) :: rest =>
      plane <- decodePlane id planeData ;;
      rangeFlights rest (flights ++ [plane])%list
  end.

(** [parseFlightsJSON] from the value [json.Unmarshal] left in [response]. *)
Definition decodeFlights (response : value) : outcome (list flightPosition) :=
  flightsData <- assertMap response ;;
  let flightsData := delete "full_count" flightsData in
  let flightsData := delete "version" flightsData in
  rangeFlights flightsData [].

(** The two [if] statements and the [Sprintf] of [formatFlight], on the four
    details. *)
Definition formatDetails (airline aircraft origin destination : string) : string :=
  let origin := if String.eqb origin "" then origin else "from " ++ origin in
  let destination :=
    if String.eqb destination "" then destination else "to " ++ destination in
  airline ++ " " ++ aircraft ++ " " ++ origin ++ " " ++ destination.

(** The substitution the handler makes on the formatted line. *)
Definition orNoAircraft (response : string) : string :=
  if String.eqb response "   " then "No aircraft found nearby" else response.

Section Service.
Context {M : GoMath} {W : World}.

Definition parseFlightsJSON (bytes : list Byte.byte) : outcome (list flightPosition) :=
  decodeFlights (fst (Unmarshal bytes)).

Definition parseFlightDetailsJSON (bytes : list Byte.byte) : FlightDetailsJSON :=
  fst (UnmarshalDetails bytes).

Definition getFlightDetails (fr24id : string)
  : outcome (string * string * string * string) :=
  let url := "https://data-live.flightradar24.com/clickhandler/?flight=" ++ fr24id in
  body <- httpGet url ;;
  let details := parseFlightDetailsJSON body in
  Ok (AirlineName details, AircraftModelText details,
      AirportOriginName details, AirportDestinationName details).

Definition formatFlight (flight : string) : outcome string :=
  details <- getFlightDetails flight ;;
  let '(airline, aircraft, origin, destination) := details in
  Ok (formatDetails airline aircraft origin destination).

Definition latitudeDelta : float := 0.5.

Definition getFlights (longitude latitude : float) : outcome (list flightPosition) :=
  let longitudeDelta := latitudeDelta * Cos latitude in
  let url := feedURL (latitude + latitudeDelta) (latitude - latitudeDelta)
                     (longitude - longitudeDelta) (longitude + longitudeDelta) in
  body <- httpGet url ;;
  parseFlightsJSON body.

(** The loop of [getClosestFlight] on the flights it fetched. *)
Definition closest (x y z : float) (flights : list flightPosition) : flightPosition :=
  scan longitude latitude altitude x y z zero flights.

Definition getClosestFlight (longitude latitude altitude : float)
  : outcome flightPosition :=
  let '(x, y, z) := pointToCartesian longitude latitude (feetToMeters altitude) in
  flights <- getFlights longitude latitude ;;
  Ok (closest x y z flights).

Definition handler (r : request) : outcome response :=
  if String.eqb (Method r) "GET" then
    let longitude := fst (ParseFloat (queryGet (Query r) "longitude")) in
    let latitude := fst (ParseFloat (queryGet (Query r) "latitude")) in
    let altitude := fst (ParseFloat (queryGet (Query r) "altitude")) in
    flight <- getClosestFlight longitude latitude altitude ;;
    response <- formatFlight (fr24id flight) ;;
    Ok (Fprint (orNoAircraft response))
  else
    Ok (httpError "Incorrect method" StatusMethodNotAllowed).

End Service.

End Part0.

(** * Vocabulary of the statements *)

(** ** Order of binary64 values

    [rank] sends every float but NaN to a triple of integers whose
    lexicographic order is the order [<?] and [<=?] decide. *)

Definition rank (f : spec_float) : option (Z * Z * Z) :=
  match f with
  | S754_nan => None
  | S754_infinity true => Some (-2, 0, 0)%Z
  | S754_infinity false => Some (2, 0, 0)%Z
  | S754_zero _ => Some (0, 0, 0)%Z
  | S754_finite true m e => Some (-1, - e, Z.neg m)%Z
  | S754_finite false m e => Some (1, e, Z.pos m)%Z
  end.

Definition lexCompare (a b : Z * Z * Z) : comparison :=
  let '(a1, a2, a3) := a in
  let '(b1, b2, b3) := b in
  match (a1 ?= b1)%Z with
  | Eq => match (a2 ?= b2)%Z with
          | Eq => (a3 ?= b3)%Z
          | c => c
          end
  | c => c
  end.

Definition lexLt (a b : Z * Z * Z) : Prop :=
  let '(a1, a2, a3) := a in
  let '(b1, b2, b3) := b in
  (a1 < b1 \/ (a1 = b1 /\ (a2 < b2 \/ (a2 = b2 /\ a3 < b3))))%Z.

Definition lexLe (a b : Z * Z * Z) : Prop := lexLt a b \/ a = b.

(** ** Shapes of feed entries *)

(** The two keys [parseFlightsJSON] deletes before it ranges over the map. *)
Definition bookkeeping (key : string) : bool :=
  String.eqb key "full_count" || String.eqb key "version".

(** The entries the loop visits. *)
Definition flightEntries (m : list (string * value)) : list (string * value) :=
  filter (fun kv => negb (bookkeeping (fst kv))) m.

Definition isFloat64 (v : option value) : bool :=
  match v with Some (VFloat64 _) => true | _ => false end.

Definition isString (v : option value) : bool :=
  match v with Some (VString _) => true | _ => false end.

(** The shape of an entry that [src/unnamed/part_000] decodes: an array with
    numbers at indices 1, 2 and 4. *)
Definition positionShaped (v : value) : bool :=
  match v with
  | VSlice status =>
      isFloat64 (nth_error status 1) && isFloat64 (nth_error status 2) &&
      isFloat64 (nth_error status 4)
  | _ => false
  end.

(** The shape of an entry that [src/main.go] decodes: also strings at
    indices 8, 11, 12 and 18. *)
Definition dataShaped (v : value) : bool :=
  match v with
  | VSlice status =>
      isFloat64 (nth_error status 1) && isFloat64 (nth_error status 2) &&
      isFloat64 (nth_error status 4) && isString (nth_error status 8) &&
      isString (nth_error status 11) && isString (nth_error status 12) &&
      isString (nth_error status 18)
  | _ => false
  end.

(** ** The formatted line *)

(** The clause [formatFlight] of [src/unnamed/part_000] builds for an
    origin or a destination. *)
Definition clause (word name : string) : string :=
  if String.eqb name "" then "" else word ++ name.

Definition allEmpty (airline aircraft origin destination : string) : bool :=
  String.eqb airline "" && String.eqb aircraft "" &&
  String.eqb origin "" && String.eqb destination "".

(** ** Rows and strings *)

(** Whether the first field of a row is the key. *)
Definition keyed (key : string) (line : list string) : bool :=
  match line with
  | k :: _ => String.eqb k key
  | [] => false
  end.

(** Whether a character occurs in a string. *)
Fixpoint occurs (c : ascii) (s : string) : bool :=
  match s with
  | EmptyString => false
  | String a rest => Ascii.eqb a c || occurs c rest
  end.

(** ** Ties among candidates *)

Section NoTies.
Context {M : GoMath} {flight : Type}.
Variables (longitudeOf latitudeOf : flight -> float) (altitudeOf : flight -> Z).
Variables x y z : float.

(** Two candidates within reach never tie: one is strictly closer. *)
Definition noTies (flights : list flight) : Prop :=
  forall f g,
    In f flights -> In g flights ->
    (distanceToFlight longitudeOf latitudeOf altitudeOf x y z f <? Inf) = true ->
    (distanceToFlight longitudeOf latitudeOf altitudeOf x y z g <? Inf) = true ->
    (distanceToFlight longitudeOf latitudeOf altitudeOf x y z f <?
     distanceToFlight longitudeOf latitudeOf altitudeOf x y z g) = false ->
    (distanceToFlight longitudeOf latitudeOf altitudeOf x y z g <?
     distanceToFlight longitudeOf latitudeOf altitudeOf x y z f) = false ->
    f = g.

End NoTies.

(** ** Go's library, as documented *)

(** What the documentation of [strconv.ParseFloat] says of its errors: a
    syntax error comes with 0, a range error with an infinity; the empty
    string is a syntax error and [1e999] is out of range. *)
Class StrconvSpec (W : World) : Prop := {
  ParseFloat_syntax : forall s f, ParseFloat s = (f, Some ErrSyntax) -> f = 0;
  ParseFloat_range :
    forall s f, ParseFloat s = (f, Some ErrRange) -> f = infinity \/ f = neg_infinity;
  ParseFloat_empty : snd (ParseFloat "") = Some ErrSyntax;
  ParseFloat_1e999 : ParseFloat "1e999" = (infinity, Some ErrRange)
}.

(** The same world with a [ParseFloat] that reports no error. *)
Definition silent (W : World) : World := {|
  ParseFloat := fun s => (fst (ParseFloat s), None);
  feedURL := feedURL;
  httpGet := httpGet;
  Unmarshal := Unmarshal;
  UnmarshalDetails := UnmarshalDetails;
  icaoAirlines := icaoAirlines;
  icaoTypes := icaoTypes;
  iataAirports := iataAirports
|}.

(** A statement about one concrete input, made for every math library, and
    for every world, that behaves as documented. *)
Definition everyGoMath (P : GoMath -> Prop) : Prop :=
  forall M : GoMath, GoMathSpec M -> P M.

Definition everyWorld (P : GoMath -> World -> Prop) : Prop :=
  forall (M : GoMath) (W : World), GoMathSpec M -> StrconvSpec W -> P M W.

(** * Sample data *)

(** A stand-in math library: truncated Taylor series.  It meets
    [GoMathSpec] and serves only to show that the hypotheses of the theorems
    can be met. *)
Definition taylorMath : GoMath := {|
  Sin := fun x => x - x * x * x / 6;
  Cos := fun x => 1 - x * x / 2;
  Pow := fun x _ => x * x
|}.

(** A flight of [src/main.go] above the point where the equator meets the
    prime meridian, at the given feed altitude. *)
Definition planeAt (altitude : Z) : MainGo.flightData := {|
  MainGo.icaoType := "B738"; MainGo.icaoAirline := "KLM";
  MainGo.iataDeparting := "LHR"; MainGo.iataArriving := "AMS";
  MainGo.longitude := 0; MainGo.latitude := 0; MainGo.altitude := altitude
|}.

Definition threePlanes : list MainGo.flightData :=
  [planeAt 5000; planeAt 100; planeAt 20000].

(** A row of the feed (19 positions), the same row with a fractional
    altitude, and one cut short before its altitude. *)
Definition goodStatus : list value :=
  [VString "4CA2B3"; VFloat64 51.47; VFloat64 (-0.45); VFloat64 270;
   VFloat64 3500; VFloat64 180; VString "1234"; VString "F-EGLL1";
   VString "B738"; VString "EI-DCL"; VFloat64 1600000000; VString "LHR";
   VString "AMS"; VString "KL1000"; VFloat64 0; VFloat64 0;
   VString "KLM1000"; VFloat64 0; VString "KLM"].

Definition fractionalStatus : list value :=
  [VString "4CA2B3"; VFloat64 51.47; VFloat64 (-0.45); VFloat64 270;
   VFloat64 9999.9; VFloat64 180; VString "1234"; VString "F-EGLL1";
   VString "B738"; VString "EI-DCL"; VFloat64 1600000000; VString "LHR";
   VString "AMS"; VString "KL1000"; VFloat64 0; VFloat64 0;
   VString "KLM1000"; VFloat64 0; VString "KLM"].

Definition shortStatus : list value :=
  [VString "4CA2B3"; VFloat64 51.47; VFloat64 (-0.45); VFloat64 270].

(** A row whose altitude, 1e19, is beyond the largest [int]. *)
Definition hugeStatus : list value :=
  [VString "4CA2B3"; VFloat64 51.47; VFloat64 (-0.45); VFloat64 270;
   VFloat64 1e19].

(** A batch with a good and a short row, and one with two good rows among
    the bookkeeping keys. *)
Definition mixedBatch : list (string * value) :=
  [("full_count", VFloat64 2); ("version", VFloat64 4);
   ("2d1e1f2a", VSlice goodStatus); ("2d1e1f2b", VSlice shortStatus)].

Definition goodBatch : list (string * value) :=
  [("2d1e1f2a", VSlice goodStatus); ("full_count", VFloat64 2);
   ("2d1e1f2c", VSlice goodStatus); ("version", VFloat64 4)].

(** A world whose feed always answers with the same decoded value, whose
    click handler always answers with the same details, and whose
    [ParseFloat] knows three inputs. *)
Definition stubParseFloat (s : string) : float * option error :=
  if String.eqb s "0" then (0, None)
  else if String.eqb s "1e999" then (infinity, Some ErrRange)
  else (0, Some ErrSyntax).

Definition stubWorld (feed : value * option error) (details : FlightDetailsJSON)
  : World := {|
  ParseFloat := stubParseFloat;
  feedURL := fun _ _ _ _ => "https://data-live.flightradar24.com/zones/fcgi/feed.js";
  httpGet := fun _ => Ok [];
  Unmarshal := fun _ => feed;
  UnmarshalDetails := fun _ => (details, None);
  icaoAirlines := [("KLM", "KLM Royal Dutch Airlines")];
  icaoTypes := [("B738", "Boeing 737-800")];
  iataAirports := [("LHR", "London Heathrow"); ("AMS", "Amsterdam Schiphol")]
|}.

Definition noDetails : FlightDetailsJSON := {|
  AircraftModelText := ""; AirlineName := "";
  AirportOriginName := ""; AirportDestinationName := ""
|}.

(** A feed with the two bookkeeping keys and no flight. *)
Definition emptySky : World :=
  stubWorld (VMap [("full_count", VFloat64 0); ("version", VFloat64 4)], None) noDetails.

(** A feed that answers with something that is not JSON. *)
Definition brokenFeed : World := stubWorld (VNil, Some ErrDecode) noDetails.

(** A network on which every request is built but none is answered, and
    one on which every request is answered with the same two bytes. *)
Definition unplugged : Network := {|
  Response := unit;
  NewRequestError := fun _ _ => None;
  Do := fun _ => Failed ErrDecode;
  ReadAll := fun _ => Done [];
  fr24idCookie := "fr24id=7b1d"
|}.

Definition echoing : Network := {|
  Response := Request;
  NewRequestError := fun _ _ => None;
  Do := fun req => Done req;
  ReadAll := fun _ => Done [Byte.x7b; Byte.x7d];
  fr24idCookie := "fr24id=7b1d"
|}.

(** A world with two servers: the feed holds no flight, and the click
    handler, which answers with other bytes, knows one flight by the empty
    identifier. *)
Definition twoServers (details : FlightDetailsJSON) : World := {|
  ParseFloat := stubParseFloat;
  feedURL := fun _ _ _ _ => "https://data-live.flightradar24.com/zones/fcgi/feed.js";
  httpGet := fun url =>
    if String.eqb url "https://data-live.flightradar24.com/zones/fcgi/feed.js"
    then Ok [] else Ok [Byte.x7b];
  Unmarshal := fun _ =>
    (VMap [("full_count", VFloat64 0); ("version", VFloat64 4)], None);
  UnmarshalDetails := fun bytes =>
    match bytes with
    | [] => (noDetails, Some ErrDecode)
    | _ => (details, None)
    end;
  icaoAirlines := [("KLM", "KLM Royal Dutch Airlines")];
  icaoTypes := [("B738", "Boeing 737-800")];
  iataAirports := [("LHR", "London Heathrow"); ("AMS", "Amsterdam Schiphol")]
|}.

Definition ghostDetails : FlightDetailsJSON := {|
  AircraftModelText := "Boeing 737-800"; AirlineName := "KLM";
  AirportOriginName := ""; AirportDestinationName := "Amsterdam Schiphol"
|}.

(** A GET with no query parameter at all. *)
Definition bareGet : request := {| Method := "GET"; Query := [] |}.

(** * Properties *)

(** ** The order of binary64 comparisons

    [<?] and [<=?] are read through [SFcompare], and [SFcompare] through
    [rank]. *)

Lemma SFcompare_rank (x y : spec_float) :
  SFcompare x y =
  match rank x, rank y with
  | Some a, Some b => Some (lexCompare a b)
  | _, _ => None
  end.
Proof.
  destruct x as [sx | sx | | sx mx ex], y as [sy | sy | | sy my ey];
    try destruct sx; try destruct sy; try reflexivity.
  cbn [SFcompare rank lexCompare]. f_equal.
  rewrite Z.compare_opp, (Z.compare_antisym ex ey).
  destruct (ex ?= ey)%Z; reflexivity.
Qed.

Lemma ltb_rank (x y : float) :
  (x <? y) = true <->
  exists a b, rank (Prim2SF x) = Some a /\ rank (Prim2SF y) = Some b /\ lexLt a b.
Proof.
  rewrite ltb_spec. unfold SFltb. rewrite SFcompare_rank.
  destruct (rank (Prim2SF x)) as [[[a1 a2] a3] |], (rank (Prim2SF y)) as [[[b1 b2] b3] |].
  2-4: split; [discriminate | intros (a & b & Ha & Hb & _); discriminate].
  unfold lexCompare.
  split.
  - intros H. eexists _, _. repeat split. unfold lexLt.
    destruct (Z.compare_spec a1 b1); try discriminate; [| lia].
    destruct (Z.compare_spec a2 b2); try discriminate; [| lia].
    destruct (Z.compare_spec a3 b3); try discriminate; lia.
  - intros (a & b & Ha & Hb & Hlt). injection Ha as <-. injection Hb as <-.
    unfold lexLt in Hlt.
    destruct (Z.compare_spec a1 b1); try lia; try reflexivity.
    destruct (Z.compare_spec a2 b2); try lia; try reflexivity.
    destruct (Z.compare_spec a3 b3); try lia; reflexivity.
Qed.

Lemma leb_rank (x y : float) :
  (x <=? y) = true <->
  exists a b, rank (Prim2SF x) = Some a /\ rank (Prim2SF y) = Some b /\ lexLe a b.
Proof.
  rewrite leb_spec. unfold SFleb. rewrite SFcompare_rank.
  destruct (rank (Prim2SF x)) as [[[a1 a2] a3] |], (rank (Prim2SF y)) as [[[b1 b2] b3] |].
  2-4: split; [discriminate | intros (a & b & Ha & Hb & _); discriminate].
  unfold lexCompare, lexLe, lexLt.
  split.
  - intros H. eexists _, _. repeat split.
    destruct (Z.compare_spec a1 b1); try discriminate; [| lia].
    destruct (Z.compare_spec a2 b2); try discriminate; [| lia].
    destruct (Z.compare_spec a3 b3); try discriminate; [right; congruence | lia].
  - intros (a & b & Ha & Hb & Hle). injection Ha as <-. injection Hb as <-.
    destruct Hle as [Hlt | Heq].
    + destruct (Z.compare_spec a1 b1); try lia; try reflexivity.
      destruct (Z.compare_spec a2 b2); try lia; try reflexivity.
      destruct (Z.compare_spec a3 b3); try lia; reflexivity.
    + injection Heq as -> -> ->. rewrite !Z.compare_refl. reflexivity.
Qed.

Lemma ltb_trans (x y z : float) :
  (x <? y) = true -> (y <? z) = true -> (x <? z) = true.
Proof.
  rewrite !ltb_rank.
  intros (a & b & Ha & Hb & Hab) (b' & c & Hb' & Hc & Hbc).
  rewrite Hb in Hb'. injection Hb' as <-.
  exists a, c. repeat split; trivial.
  destruct a as [[a1 a2] a3], b as [[b1 b2] b3], c as [[c1 c2] c3].
  unfold lexLt in *. lia.
Qed.

Lemma leb_ltb_trans (x y z : float) :
  (x <=? y) = true -> (y <? z) = true -> (x <? z) = true.
Proof.
  rewrite leb_rank, !ltb_rank.
  intros (a & b & Ha & Hb & Hab) (b' & c & Hb' & Hc & Hbc).
  rewrite Hb in Hb'. injection Hb' as <-.
  exists a, c. repeat split; trivial.
  destruct Hab as [Hab | ->]; trivial.
  destruct a as [[a1 a2] a3], b as [[b1 b2] b3], c as [[c1 c2] c3].
  unfold lexLt in *. lia.
Qed.

Lemma ltb_not_leb (x y : float) :
  (x <? y) = true -> (y <=? x) = false.
Proof.
  intros H. destruct (y <=? x) eqn:E; trivial. exfalso.
  apply ltb_rank in H. apply leb_rank in E.
  destruct H as (a & b & Ha & Hb & Hab), E as (b' & a' & Hb' & Ha' & Hba).
  rewrite Hb in Hb'. injection Hb' as <-. rewrite Ha in Ha'. injection Ha' as <-.
  destruct a as [[a1 a2] a3], b as [[b1 b2] b3].
  destruct Hba as [Hba | Heq]; [| injection Heq as -> -> ->]; unfold lexLt in *; lia.
Qed.

(** ** The scan keeps the first strict minimum *)

Section ScanFacts.
Context {M : GoMath} {flight : Type}.
Variables (longitudeOf latitudeOf : flight -> float) (altitudeOf : flight -> Z).
Variables x y z : float.

Let dist : flight -> float := distanceToFlight longitudeOf latitudeOf altitudeOf x y z.
Let step := scanStep longitudeOf latitudeOf altitudeOf x y z.

(** Either no candidate beats the running minimum and the state is
    unchanged, or the loop ends on the first candidate of least distance. *)
Lemma fold_scanStep (flights : list flight) :
  forall (m : float) (b : flight),
    (fold_left step flights (m, b) = (m, b) /\
     Forall (fun f => (dist f <? m) = false) flights)
    \/
    (exists pre r post,
        flights = (pre ++ r :: post)%list /\
        fold_left step flights (m, b) = (dist r, r) /\
        (dist r <? m) = true /\
        Forall (fun f => (dist f <=? dist r) = false) pre /\
        Forall (fun f => (dist f <? dist r) = false) post).
Proof.
  induction flights as [| f rest IH]; intros m b.
  - left. split; [reflexivity | constructor].
  - cbn [fold_left].
    replace (step (m, b) f) with (if dist f <? m then (dist f, f) else (m, b))
      by reflexivity.
    destruct (dist f <? m) eqn:Hf.
    + right. destruct (IH (dist f) f) as [[Hsame Hall] | (pre & r & post & -> & Hr & Hlt & Hpre & Hpost)].
      * exists [], f, rest. repeat split; auto.
      * exists (f :: pre), r, post. repeat split; auto.
        -- eapply ltb_trans; eassumption.
        -- constructor; [apply ltb_not_leb; assumption | assumption].
    + destruct (IH m b) as [[Hsame Hall] | (pre & r & post & -> & Hr & Hlt & Hpre & Hpost)].
      * left. split; [assumption | constructor; assumption].
      * right. exists (f :: pre), r, post. repeat split; auto.
        constructor; [| assumption].
        destruct (dist f <=? dist r) eqn:Hle; [| reflexivity].
        rewrite (leb_ltb_trans _ _ _ Hle Hlt) in Hf. discriminate.
Qed.

Lemma scan_nil (zero : flight) :
  scan longitudeOf latitudeOf altitudeOf x y z zero [] = zero.
Proof. reflexivity. Qed.

(** No candidate at a distance below [+Inf]: the zero record comes back. *)
Lemma scan_none (zero : flight) (flights : list flight) :
  Forall (fun f => (dist f <? Inf) = false) flights ->
  scan longitudeOf latitudeOf altitudeOf x y z zero flights = zero.
Proof.
  intros Hall. unfold scan. fold step.
  destruct (fold_scanStep flights Inf zero)
    as [[-> _] | (pre & r & post & -> & _ & Hlt & _ & _)]; [reflexivity |].
  apply Forall_app in Hall as [_ Hall]. inversion Hall as [| ? ? Hr _]; subst.
  fold dist in Hr. rewrite Hr in Hlt. discriminate.
Qed.

(** Some candidate at a distance below [+Inf]: the first of least distance
    comes back. *)
Lemma scan_first_min (zero : flight) (flights : list flight) :
  Exists (fun f => (dist f <? Inf) = true) flights ->
  exists pre post,
    let r := scan longitudeOf latitudeOf altitudeOf x y z zero flights in
    flights = (pre ++ r :: post)%list /\
    (dist r <? Inf) = true /\
    Forall (fun f => (dist f <=? dist r) = false) pre /\
    Forall (fun f => (dist f <? dist r) = false) post.
Proof.
  intros Hex. unfold scan. fold step.
  destruct (fold_scanStep flights Inf zero)
    as [[_ Hall] | (pre & r & post & Hsplit & -> & Hlt & Hpre & Hpost)].
  - exfalso. apply Exists_exists in Hex as (f & Hin & Hf).
    rewrite Forall_forall in Hall. rewrite (Hall f Hin) in Hf. discriminate.
  - exists pre, post. cbn. auto.
Qed.

End ScanFacts.

(** The two selectors are [scan] on the flights they fetched. *)
Lemma getClosestPlane_scan
  (M : GoMath) (W : World) (longitude latitude altitude : float)
  (flights : list MainGo.flightData) :
  MainGo.getFlights longitude latitude = Ok flights ->
  MainGo.getClosestPlane longitude latitude altitude =
  let '(x, y, z) := pointToCartesian longitude latitude (feetToMeters altitude) in
  Ok (scan MainGo.longitude MainGo.latitude MainGo.altitude x y z MainGo.zero flights).
Proof.
  intros H. unfold MainGo.getClosestPlane.
  destruct (pointToCartesian _ _ _) as [[x y] z]. rewrite H. reflexivity.
Qed.

Lemma getClosestFlight_scan
  (M : GoMath) (W : World) (longitude latitude altitude : float)
  (flights : list Part0.flightPosition) :
  Part0.getFlights longitude latitude = Ok flights ->
  Part0.getClosestFlight longitude latitude altitude =
  let '(x, y, z) := pointToCartesian longitude latitude (feetToMeters altitude) in
  Ok (scan Part0.longitude Part0.latitude Part0.altitude x y z Part0.zero flights).
Proof.
  intros H. unfold Part0.getClosestFlight.
  destruct (pointToCartesian _ _ _) as [[x y] z]. rewrite H. reflexivity.
Qed.

(** ** The transform on the equator at the prime meridian *)

Lemma taylorMath_spec : GoMathSpec taylorMath.
Proof. split; reflexivity. Qed.

Section Origin.
Context {M : GoMath} {HM : GoMathSpec M}.

Lemma pointToCartesian_origin (altitude : float) :
  pointToCartesian 0 0 altitude =
  ((6378137 + altitude) * 1 * 1,
   (6378137 + altitude) * 1 * 0,
   (0.9933056200098024 * 6378137 + altitude) * 0).
Proof.
  unfold pointToCartesian. rewrite Sin_zero, Cos_zero.
  rewrite (Pow_two 0) by reflexivity. reflexivity.
Qed.

Lemma distance_squares (x1 y1 z1 x2 y2 z2 : float) :
  squares (x2 - x1) = true -> squares (y2 - y1) = true -> squares (z2 - z1) = true ->
  distance x1 y1 z1 x2 y2 z2 =
  sqrt ((x2 - x1) * (x2 - x1) + (y2 - y1) * (y2 - y1) + (z2 - z1) * (z2 - z1)).
Proof.
  intros Hx Hy Hz. unfold distance, Sqrt. rewrite !Pow_two by assumption. reflexivity.
Qed.

End Origin.

(** C7.  On the equator at the prime meridian and at sea level
    ([pointToCartesian 0 0 0]) the transform yields [(6378137, 0, 0)]: x is
    the WGS84 semi-major axis and y = z = 0.  For every input the three
    coordinates are the stated formulas, with
    [N(lat) = a / sqrt(1 - e2 * sin(lat)^2)], [a = 6378137],
    [e2 = 0.006694379990197619], the source's constant
    [0.9933056200098024] being [1 - e2] in binary64. *)
Theorem pointToCartesian_equator_sea_level (M : GoMath) (HM : GoMathSpec M) :
  pointToCartesian 0 0 0 = (6378137, 0, 0) /\
  forall longitude latitude altitude : float,
    let a := 6378137 in
    let e2 := 0.006694379990197619 in
    let N := a / sqrt (1 - e2 * Pow (Sin latitude) 2) in
    pointToCartesian longitude latitude altitude =
    ((N + altitude) * Cos latitude * Cos longitude,
     (N + altitude) * Cos latitude * Sin longitude,
     ((1 - e2) * N + altitude) * Sin latitude).
Proof.
  split.
  - rewrite pointToCartesian_origin. reflexivity.
  - intros. reflexivity.
Qed.

Lemma pointToCartesian_equator_sea_level_witness :
  @pointToCartesian taylorMath 0 0 0 = (6378137, 0, 0) /\
  forall longitude latitude altitude : float,
    let a := 6378137 in
    let e2 := 0.006694379990197619 in
    let N := a / sqrt (1 - e2 * @Pow taylorMath (@Sin taylorMath latitude) 2) in
    @pointToCartesian taylorMath longitude latitude altitude =
    ((N + altitude) * @Cos taylorMath latitude * @Cos taylorMath longitude,
     (N + altitude) * @Cos taylorMath latitude * @Sin taylorMath longitude,
     ((1 - e2) * N + altitude) * @Sin taylorMath latitude).
Proof. exact (pointToCartesian_equator_sea_level taylorMath taylorMath_spec). Defined.

(** ** The selector *)

Lemma ltb_leb (a b : float) : (a <? b) = true -> (a <=? b) = true.
Proof.
  rewrite ltb_rank, leb_rank. intros (p & q & Hp & Hq & Hlt).
  exists p, q. repeat split; trivial. left; assumption.
Qed.

Lemma ltb_irrefl (a : float) : (a <? a) = false.
Proof.
  destruct (a <? a) eqn:E; trivial.
  pose proof (ltb_not_leb _ _ E) as H. rewrite (ltb_leb _ _ E) in H. discriminate.
Qed.

(** Distances the loop computes for flights above the origin point. *)

Section OriginFlights.
Context {M : GoMath} {HM : GoMathSpec M}.

(** The distance the loop computes for a flight above the origin point. *)
Lemma distanceToFlight_planeAt (x y z : float) (a : Z) :
  let X := (6378137 + float64 a) * 1 * 1 in
  let Y := (6378137 + float64 a) * 1 * 0 in
  let Z := (0.9933056200098024 * 6378137 + float64 a) * 0 in
  squares (X - x) = true -> squares (Y - y) = true -> squares (Z - z) = true ->
  distanceToFlight MainGo.longitude MainGo.latitude MainGo.altitude x y z (planeAt a) =
  sqrt ((X - x) * (X - x) + (Y - y) * (Y - y) + (Z - z) * (Z - z)).
Proof.
  intros X Y Z HX HY HZ. unfold distanceToFlight.
  change (MainGo.longitude (planeAt a)) with 0.
  change (MainGo.latitude (planeAt a)) with 0.
  change (MainGo.altitude (planeAt a)) with a.
  rewrite pointToCartesian_origin. apply distance_squares; assumption.
Qed.

(** The same with the altitude converted to meters first. *)
Lemma distanceToFlight_spec_planeAt (x y z : float) (a : Z) :
  let X := (6378137 + feetToMeters (float64 a)) * 1 * 1 in
  let Y := (6378137 + feetToMeters (float64 a)) * 1 * 0 in
  let Z := (0.9933056200098024 * 6378137 + feetToMeters (float64 a)) * 0 in
  squares (X - x) = true -> squares (Y - y) = true -> squares (Z - z) = true ->
  distanceToFlight_spec MainGo.longitude MainGo.latitude MainGo.altitude x y z (planeAt a) =
  sqrt ((X - x) * (X - x) + (Y - y) * (Y - y) + (Z - z) * (Z - z)).
Proof.
  intros X Y Z HX HY HZ. unfold distanceToFlight_spec.
  change (MainGo.longitude (planeAt a)) with 0.
  change (MainGo.latitude (planeAt a)) with 0.
  change (MainGo.altitude (planeAt a)) with a.
  rewrite pointToCartesian_origin. apply distance_squares; assumption.
Qed.

End OriginFlights.

(** C1, as amended.  The loop of [getClosestPlane] and [getClosestFlight]
    ([scan]), on any observer point and any candidate list.  When some
    candidate's computed distance compares below [+Inf], it returns a
    candidate [r] of the list whose own distance compares below [+Inf], such
    that every candidate before it is not at a distance less than or equal
    to its own, and no candidate at all is at a strictly smaller distance:
    the first candidate of least computed distance, never one at a NaN
    distance.  When no candidate's distance compares below [+Inf] (each is
    NaN or [+Inf]), it returns the zero record.  In particular, of three
    candidates at computed distances 5000, 100 and 20000, in any order, it
    returns the one at 100. *)
Theorem scan_first_of_least_distance
  (M : GoMath) (flight : Type)
  (longitudeOf latitudeOf : flight -> float) (altitudeOf : flight -> Z)
  (x y z : float) (zero : flight) (flights : list flight) :
  let d := distanceToFlight longitudeOf latitudeOf altitudeOf x y z in
  let r := scan longitudeOf latitudeOf altitudeOf x y z zero flights in
  (Exists (fun f => (d f <? Inf) = true) flights ->
   (d r <? Inf) = true /\
   (exists pre post,
       flights = (pre ++ r :: post)%list /\
       Forall (fun f => (d f <=? d r) = false) pre) /\
   Forall (fun f => (d f <? d r) = false) flights) /\
  (Forall (fun f => (d f <? Inf) = false) flights -> r = zero) /\
  (forall f1 f2 f3,
      Permutation flights [f1; f2; f3] ->
      d f1 = 5000 -> d f2 = 100 -> d f3 = 20000 -> r = f2).
Proof.
  intros d r.
  assert (Hmin : Exists (fun f => (d f <? Inf) = true) flights ->
                 (d r <? Inf) = true /\
                 (exists pre post,
                     flights = (pre ++ r :: post)%list /\
                     Forall (fun f => (d f <=? d r) = false) pre) /\
                 Forall (fun f => (d f <? d r) = false) flights).
  { intros Hex.
    destruct (scan_first_min longitudeOf latitudeOf altitudeOf x y z zero flights Hex)
      as (pre & post & Hsplit & Hfin & Hpre & Hpost).
    fold r in Hsplit, Hfin, Hpre, Hpost. fold d in Hfin, Hpre, Hpost.
    split; [exact Hfin |].
    split; [exists pre, post; auto |].
    rewrite Hsplit at 1. apply Forall_app. split.
    - eapply Forall_impl; [| exact Hpre]. intros f Hf. cbv beta in Hf |- *.
      destruct (d f <? d r) eqn:E; trivial.
      rewrite (ltb_leb _ _ E) in Hf. discriminate.
    - constructor; [apply ltb_irrefl | exact Hpost]. }
  split; [exact Hmin |]. split; [apply scan_none |].
  intros f1 f2 f3 Hperm H1 H2 H3.
  assert (H2in : In f2 flights).
  { apply (Permutation_in _ (Permutation_sym Hperm)). right. left. reflexivity. }
  destruct Hmin as (_ & (pre & post & Hsplit & _) & Hall).
  { apply Exists_exists. exists f2. split; [exact H2in |]. rewrite H2. reflexivity. }
  assert (Hr : In r [f1; f2; f3]).
  { apply (Permutation_in _ Hperm). rewrite Hsplit.
    apply in_or_app. right. left. reflexivity. }
  rewrite Forall_forall in Hall. specialize (Hall f2 H2in). rewrite H2 in Hall.
  destruct Hr as [<- | [<- | [<- | []]]]; trivial.
  - rewrite H1 in Hall. discriminate.
  - rewrite H3 in Hall. discriminate.
Qed.

Lemma scan_first_of_least_distance_witness :
  @MainGo.closest taylorMath 6378137 0 0 threePlanes = planeAt 100.
Proof.
  refine (proj2 (proj2 (scan_first_of_least_distance taylorMath MainGo.flightData
            MainGo.longitude MainGo.latitude MainGo.altitude
            6378137 0 0 MainGo.zero threePlanes))
            (planeAt 5000) (planeAt 100) (planeAt 20000) _ _ _ _).
  - apply Permutation_refl.
  - reflexivity.
  - reflexivity.
  - reflexivity.
Defined.

(** The claim as first stated fails on an observer whose altitude is NaN
    (the query [altitude=NaN] parses to it): every distance is then NaN,
    no candidate replaces the initial record, and [flightData{}] comes
    back although the candidate list is not empty.  The same happens on an
    observer at the finite altitude 1e308: the square of the difference
    overflows and the distance is [+Inf], which is not below the initial
    [minDistance]. *)
Lemma scan_nan_observer_counterexample :
  everyGoMath (fun M =>
    (let '(x, y, z) := pointToCartesian 0 0 (feetToMeters nan) in
     MainGo.closest x y z [planeAt 100] = MainGo.zero /\
     ~ In (MainGo.closest x y z [planeAt 100]) [planeAt 100]) /\
    (let '(x, y, z) := pointToCartesian 0 0 (feetToMeters 1e308) in
     MainGo.closest x y z [planeAt 100] = MainGo.zero /\
     ~ In (MainGo.closest x y z [planeAt 100]) [planeAt 100])).
Proof.
  intros M HM. rewrite !pointToCartesian_origin.
  assert (Hnan : MainGo.closest ((6378137 + feetToMeters nan) * 1 * 1)
                   ((6378137 + feetToMeters nan) * 1 * 0)
                   ((0.9933056200098024 * 6378137 + feetToMeters nan) * 0)
                   [planeAt 100] = MainGo.zero).
  { apply scan_none. constructor; [| constructor].
    rewrite distanceToFlight_planeAt by reflexivity. reflexivity. }
  assert (Hbig : MainGo.closest ((6378137 + feetToMeters 1e308) * 1 * 1)
                   ((6378137 + feetToMeters 1e308) * 1 * 0)
                   ((0.9933056200098024 * 6378137 + feetToMeters 1e308) * 0)
                   [planeAt 100] = MainGo.zero).
  { apply scan_none. constructor; [| constructor].
    rewrite distanceToFlight_planeAt by reflexivity. reflexivity. }
  rewrite Hnan, Hbig.
  repeat split; try reflexivity; intros [E | []]; discriminate E.
Qed.

(** ** Units of the candidates' altitude *)

(** C2, where the code departs from it.  An observer at 10000 ft above the
    origin point, one flight at 9000 ft and one at 4000 ft above the same
    point.  The observer's altitude is converted ([feetToMeters], 3048 m);
    the candidates' altitudes enter the transform unconverted, so the loop
    computes 5952 and 952 and returns the flight at 4000 ft.  With the
    candidates converted as well the distances are 304.8 m and 1828.8 m (up
    to rounding) and the flight at 9000 ft is the closest. *)
Theorem candidate_altitude_enters_unconverted (M : GoMath) (HM : GoMathSpec M) :
  let '(x, y, z) := pointToCartesian 0 0 (feetToMeters 10000) in
  let d := distanceToFlight MainGo.longitude MainGo.latitude MainGo.altitude x y z in
  d (planeAt 9000) = 5952 /\
  d (planeAt 4000) = 952 /\
  MainGo.closest x y z [planeAt 9000; planeAt 4000] = planeAt 4000 /\
  scan_spec MainGo.longitude MainGo.latitude MainGo.altitude x y z MainGo.zero
            [planeAt 9000; planeAt 4000] = planeAt 9000.
Proof.
  rewrite pointToCartesian_origin.
  set (x := (6378137 + feetToMeters 10000) * 1 * 1).
  set (y := (6378137 + feetToMeters 10000) * 1 * 0).
  set (z := (0.9933056200098024 * 6378137 + feetToMeters 10000) * 0).
  assert (H9 : distanceToFlight MainGo.longitude MainGo.latitude MainGo.altitude
                 x y z (planeAt 9000) = 5952).
  { rewrite distanceToFlight_planeAt by reflexivity. reflexivity. }
  assert (H4 : distanceToFlight MainGo.longitude MainGo.latitude MainGo.altitude
                 x y z (planeAt 4000) = 952).
  { rewrite distanceToFlight_planeAt by reflexivity. reflexivity. }
  assert (S9 : distanceToFlight_spec MainGo.longitude MainGo.latitude MainGo.altitude
                 x y z (planeAt 9000) = 304.79999999981374).
  { rewrite distanceToFlight_spec_planeAt by reflexivity. reflexivity. }
  assert (S4 : distanceToFlight_spec MainGo.longitude MainGo.latitude MainGo.altitude
                 x y z (planeAt 4000) = 1828.7999999998137).
  { rewrite distanceToFlight_spec_planeAt by reflexivity. reflexivity. }
  repeat split; trivial.
  - unfold MainGo.closest, scan. cbn [fold_left]. unfold scanStep.
    rewrite H9. cbn [fst]. rewrite H4. reflexivity.
  - unfold scan_spec. cbn [fold_left].
    rewrite S9. cbn [fst]. rewrite S4. reflexivity.
Qed.

Lemma candidate_altitude_enters_unconverted_witness :
  let M : GoMath := taylorMath in
  let '(x, y, z) := pointToCartesian 0 0 (feetToMeters 10000) in
  let d := distanceToFlight MainGo.longitude MainGo.latitude MainGo.altitude x y z in
  d (planeAt 9000) = 5952 /\
  d (planeAt 4000) = 952 /\
  MainGo.closest x y z [planeAt 9000; planeAt 4000] = planeAt 4000 /\
  scan_spec MainGo.longitude MainGo.latitude MainGo.altitude x y z MainGo.zero
            [planeAt 9000; planeAt 4000] = planeAt 9000.
Proof. exact (candidate_altitude_enters_unconverted taylorMath taylorMath_spec). Defined.

(** ** The decoder *)

Lemma delete_bookkeeping (m : list (string * value)) :
  delete "version" (delete "full_count" m) = flightEntries m.
Proof.
  unfold delete, flightEntries, bookkeeping.
  induction m as [| [k v] m IH]; [reflexivity |].
  cbn [filter fst].
  destruct (String.eqb k "full_count") eqn:E1; cbn [negb orb].
  - exact IH.
  - cbn [filter fst]. destruct (String.eqb k "version"); cbn [negb]; now rewrite IH.
Qed.

Ltac decode_index :=
  match goal with
  | |- context [nth_error ?s ?i] =>
      destruct (nth_error s i) as [[] |];
      cbn [bind assertFloat64 assertString returned isFloat64 isString andb];
      try reflexivity
  end.

Lemma Part0_decodePlane_returns (id : string) (v : value) :
  returned (Part0.decodePlane id v) = positionShaped v.
Proof.
  destruct v; try reflexivity. unfold Part0.decodePlane, positionShaped, index.
  cbn [assertSlice bind]. repeat decode_index.
Qed.

Lemma MainGo_decodePlane_returns (v : value) :
  returned (MainGo.decodePlane v) = dataShaped v.
Proof.
  destruct v; try reflexivity. unfold MainGo.decodePlane, dataShaped, index.
  cbn [assertSlice bind]. repeat decode_index.
Qed.

Lemma Part0_decodePlane_not_fatal (id : string) (v : value) :
  Part0.decodePlane id v <> Fatal.
Proof.
  destruct v; try discriminate. unfold Part0.decodePlane, index.
  cbn [assertSlice bind]. repeat decode_index; discriminate.
Qed.

Lemma MainGo_decodePlane_not_fatal (v : value) :
  MainGo.decodePlane v <> Fatal.
Proof.
  destruct v; try discriminate. unfold MainGo.decodePlane, index.
  cbn [assertSlice bind]. repeat decode_index; discriminate.
Qed.

Lemma Part0_rangeFlights_ok (l : list (string * value)) :
  forall acc,
    Forall (fun kv => positionShaped (snd kv) = true) l ->
    exists fl, Part0.rangeFlights l acc = Ok (acc ++ fl)%list /\ List.length fl = List.length l.
Proof.
  induction l as [| [id v] l IH]; intros acc Hall.
  - exists []. now rewrite app_nil_r.
  - inversion Hall as [| ? ? Hv Hl]; subst. cbn [snd] in Hv.
    cbn [Part0.rangeFlights].
    pose proof (Part0_decodePlane_returns id v) as Hret. rewrite Hv in Hret.
    destruct (Part0.decodePlane id v) as [p | |]; try discriminate.
    cbn [bind]. destruct (IH (acc ++ [p])%list Hl) as (fl & -> & Hlen).
    exists (p :: fl). rewrite <- app_assoc. cbn. now rewrite Hlen.
Qed.

Lemma MainGo_rangeFlights_ok (l : list (string * value)) :
  forall acc,
    Forall (fun kv => dataShaped (snd kv) = true) l ->
    exists fl, MainGo.rangeFlights l acc = Ok (acc ++ fl)%list /\ List.length fl = List.length l.
Proof.
  induction l as [| [id v] l IH]; intros acc Hall.
  - exists []. now rewrite app_nil_r.
  - inversion Hall as [| ? ? Hv Hl]; subst. cbn [snd] in Hv.
    cbn [MainGo.rangeFlights].
    pose proof (MainGo_decodePlane_returns v) as Hret. rewrite Hv in Hret.
    destruct (MainGo.decodePlane v) as [p | |]; try discriminate.
    cbn [bind]. destruct (IH (acc ++ [p])%list Hl) as (fl & -> & Hlen).
    exists (p :: fl). rewrite <- app_assoc. cbn. now rewrite Hlen.
Qed.

Lemma Part0_rangeFlights_panic (l : list (string * value)) :
  forall acc,
    Exists (fun kv => positionShaped (snd kv) = false) l ->
    exists p, Part0.rangeFlights l acc = Panic p.
Proof.
  induction l as [| [id v] l IH]; intros acc Hex; [inversion Hex |].
  cbn [Part0.rangeFlights].
  pose proof (Part0_decodePlane_returns id v) as Hret.
  pose proof (Part0_decodePlane_not_fatal id v) as Hnf.
  destruct (Part0.decodePlane id v) as [p | p |]; cbn [bind].
  - inversion Hex as [? ? Hv | ? ? Hl]; subst.
    + cbn [snd returned] in *. congruence.
    + apply IH; assumption.
  - exists p; reflexivity.
  - congruence.
Qed.

Lemma MainGo_rangeFlights_panic (l : list (string * value)) :
  forall acc,
    Exists (fun kv => dataShaped (snd kv) = false) l ->
    exists p, MainGo.rangeFlights l acc = Panic p.
Proof.
  induction l as [| [id v] l IH]; intros acc Hex; [inversion Hex |].
  cbn [MainGo.rangeFlights].
  pose proof (MainGo_decodePlane_returns v) as Hret.
  pose proof (MainGo_decodePlane_not_fatal v) as Hnf.
  destruct (MainGo.decodePlane v) as [p | p |]; cbn [bind].
  - inversion Hex as [? ? Hv | ? ? Hl]; subst.
    + cbn [snd returned] in *. congruence.
    + apply IH; assumption.
  - exists p; reflexivity.
  - congruence.
Qed.

Lemma Part0_decodeFlights_map (m : list (string * value)) :
  Part0.decodeFlights (VMap m) = Part0.rangeFlights (flightEntries m) [].
Proof. unfold Part0.decodeFlights. cbn [assertMap bind]. now rewrite delete_bookkeeping. Qed.

Lemma MainGo_decodeFlights_map (m : list (string * value)) :
  MainGo.decodeFlights (VMap m) = MainGo.rangeFlights (flightEntries m) [].
Proof. unfold MainGo.decodeFlights. cbn [assertMap bind]. now rewrite delete_bookkeeping. Qed.

Lemma Permutation_filter {A : Type} (p : A -> bool) (l l' : list A) :
  Permutation l l' -> Permutation (filter p l) (filter p l').
Proof.
  induction 1 as [| a l l' _ IH | a b l | l l' l'' _ IH1 _ IH2]; cbn [filter].
  - constructor.
  - destruct (p a); [constructor |]; exact IH.
  - destruct (p a), (p b); try apply Permutation_refl. constructor.
  - eapply Permutation_trans; eassumption.
Qed.

Lemma flightEntries_id (entries : list (string * value)) :
  Forall (fun kv => bookkeeping (fst kv) = false) entries ->
  flightEntries entries = entries.
Proof.
  unfold flightEntries. induction 1 as [| kv l Hkv _ IH]; [reflexivity |].
  cbn [filter]. rewrite Hkv. cbn [negb]. now rewrite IH.
Qed.

Lemma short_not_positionShaped (status : list value) :
  (List.length status <= 4)%nat -> positionShaped (VSlice status) = false.
Proof.
  intros Hlen. cbn [positionShaped].
  assert (H4 : nth_error status 4 = None) by (apply nth_error_None; exact Hlen).
  rewrite H4. cbn [isFloat64]. apply andb_false_r.
Qed.

Lemma short_not_dataShaped (status : list value) :
  (List.length status <= 4)%nat -> dataShaped (VSlice status) = false.
Proof.
  intros Hlen. cbn [dataShaped].
  assert (H4 : nth_error status 4 = None) by (apply nth_error_None; exact Hlen).
  rewrite H4. cbn [isFloat64]. rewrite andb_false_r. reflexivity.
Qed.

(** C3, as amended.  A flight entry whose array stops before the altitude
    index makes the whole decode panic: no flight record is returned, in
    either variant, whatever else the batch holds and in whatever order the
    map is visited. *)
Theorem decodeFlights_short_record_panics
  (m : list (string * value)) (key : string) (status : list value) :
  In (key, VSlice status) m ->
  bookkeeping key = false ->
  (List.length status <= 4)%nat ->
  (exists p, MainGo.decodeFlights (VMap m) = Panic p) /\
  (exists p, Part0.decodeFlights (VMap m) = Panic p).
Proof.
  intros Hin Hkey Hlen.
  assert (Hentry : In (key, VSlice status) (flightEntries m)).
  { apply filter_In. split; [exact Hin |]. cbn [fst]. now rewrite Hkey. }
  split.
  - rewrite MainGo_decodeFlights_map. apply MainGo_rangeFlights_panic.
    apply Exists_exists. exists (key, VSlice status). split; [exact Hentry |].
    apply short_not_dataShaped; exact Hlen.
  - rewrite Part0_decodeFlights_map. apply Part0_rangeFlights_panic.
    apply Exists_exists. exists (key, VSlice status). split; [exact Hentry |].
    apply short_not_positionShaped; exact Hlen.
Qed.

Lemma decodeFlights_short_record_panics_witness :
  (exists p, MainGo.decodeFlights (VMap mixedBatch) = Panic p) /\
  (exists p, Part0.decodeFlights (VMap mixedBatch) = Panic p).
Proof.
  apply (decodeFlights_short_record_panics mixedBatch "2d1e1f2b" shortStatus).
  - right. right. right. left. reflexivity.
  - reflexivity.
  - cbn. lia.
Defined.

(** One well-formed record and one record without its altitude index: the
    decode ends in an index-out-of-range panic, in both variants and in both
    orders of the two entries, instead of returning one flight record. *)
Lemma decodeFlights_mixed_batch_counterexample :
  MainGo.decodeFlights (VMap mixedBatch) = Panic IndexOutOfRange /\
  Part0.decodeFlights (VMap mixedBatch) = Panic IndexOutOfRange /\
  MainGo.decodeFlights (VMap (rev mixedBatch)) = Panic IndexOutOfRange /\
  Part0.decodeFlights (VMap (rev mixedBatch)) = Panic IndexOutOfRange.
Proof. repeat split; reflexivity. Qed.

Lemma decodeFlights_not_object (response : value) :
  (forall m, response <> VMap m) ->
  MainGo.decodeFlights response = Panic TypeAssertion /\
  Part0.decodeFlights response = Panic TypeAssertion.
Proof.
  intros Hshape. destruct response; try (split; reflexivity).
  exfalso. eapply Hshape. reflexivity.
Qed.

(** C4, as amended.  A payload whose decoded top level is not an object
    (an array, a string, or the nil that bytes which do not parse leave
    behind) makes [parseFlightsJSON] panic on its type assertion, in both
    variants; no error value is returned.  The panic leaves through
    [getFlights], the selector and the handler: a GET whose feed answers
    with such a payload ends in the panic, with no response written. *)
Theorem parseFlightsJSON_not_object_panics
  (M : GoMath) (W : World) (bytes : list Byte.byte) :
  (forall m, fst (Unmarshal bytes) <> VMap m) ->
  MainGo.parseFlightsJSON bytes = Panic TypeAssertion /\
  Part0.parseFlightsJSON bytes = Panic TypeAssertion /\
  forall r : request,
    Method r = "GET" ->
    (forall url, httpGet url = Ok bytes) ->
    MainGo.handler r = Panic TypeAssertion /\
    Part0.handler r = Panic TypeAssertion.
Proof.
  intros Hshape.
  destruct (decodeFlights_not_object _ Hshape) as [Hm Hp].
  change (MainGo.parseFlightsJSON bytes = Panic TypeAssertion) in Hm.
  change (Part0.parseFlightsJSON bytes = Panic TypeAssertion) in Hp.
  split; [exact Hm |]. split; [exact Hp |].
  intros r Hget Hfeed. split.
  - unfold MainGo.handler. rewrite Hget. change (String.eqb "GET" "GET") with true.
    cbv iota zeta. unfold MainGo.getClosestPlane.
    destruct (pointToCartesian _ _ _) as [[x y] z].
    unfold MainGo.getFlights. rewrite Hfeed. cbn [bind].
    rewrite Hm. reflexivity.
  - unfold Part0.handler. rewrite Hget. change (String.eqb "GET" "GET") with true.
    cbv iota zeta. unfold Part0.getClosestFlight.
    destruct (pointToCartesian _ _ _) as [[x y] z].
    unfold Part0.getFlights. rewrite Hfeed. cbn [bind].
    rewrite Hp. reflexivity.
Qed.

Lemma parseFlightsJSON_not_object_panics_witness :
  @MainGo.handler taylorMath brokenFeed bareGet = Panic TypeAssertion /\
  @Part0.handler taylorMath brokenFeed bareGet = Panic TypeAssertion.
Proof.
  refine (proj2 (proj2 (parseFlightsJSON_not_object_panics taylorMath brokenFeed [] _))
            bareGet eq_refl _).
  - intros m H. discriminate H.
  - intros url. reflexivity.
Defined.

(** A top-level JSON array, and the nil left behind by unparsable bytes:
    the decode panics. *)
Lemma decodeFlights_array_counterexample :
  MainGo.decodeFlights (VSlice []) = Panic TypeAssertion /\
  Part0.decodeFlights (VSlice []) = Panic TypeAssertion /\
  MainGo.decodeFlights VNil = Panic TypeAssertion /\
  Part0.decodeFlights VNil = Panic TypeAssertion.
Proof. repeat split; reflexivity. Qed.

(** C6.  A batch made of the two bookkeeping keys [full_count] and
    [version] and of [n] flight entries, visited in any order, decodes to
    exactly [n] flight records, provided every flight entry has the shape
    the variant reads. *)
Theorem decodeFlights_excludes_bookkeeping
  (m entries : list (string * value)) (count version : value) :
  Permutation m (("full_count", count) :: ("version", version) :: entries) ->
  Forall (fun kv => bookkeeping (fst kv) = false) entries ->
  (Forall (fun kv => dataShaped (snd kv) = true) entries ->
   exists flights, MainGo.decodeFlights (VMap m) = Ok flights /\
                   List.length flights = List.length entries) /\
  (Forall (fun kv => positionShaped (snd kv) = true) entries ->
   exists flights, Part0.decodeFlights (VMap m) = Ok flights /\
                   List.length flights = List.length entries).
Proof.
  intros Hperm Hkeys.
  assert (Hfe : Permutation (flightEntries m) entries).
  { unfold flightEntries at 1.
    eapply Permutation_trans; [apply Permutation_filter; exact Hperm |].
    cbn [filter fst bookkeeping String.eqb orb negb].
    change (filter _ entries) with (flightEntries entries).
    rewrite (flightEntries_id entries Hkeys). apply Permutation_refl. }
  split; intros Hshape.
  - rewrite MainGo_decodeFlights_map.
    destruct (MainGo_rangeFlights_ok (flightEntries m) [])
      as (fl & Hfl & Hlen).
    { eapply Permutation_Forall; [apply Permutation_sym; exact Hfe | exact Hshape]. }
    exists fl. split; [exact Hfl |]. rewrite Hlen. apply Permutation_length, Hfe.
  - rewrite Part0_decodeFlights_map.
    destruct (Part0_rangeFlights_ok (flightEntries m) [])
      as (fl & Hfl & Hlen).
    { eapply Permutation_Forall; [apply Permutation_sym; exact Hfe | exact Hshape]. }
    exists fl. split; [exact Hfl |]. rewrite Hlen. apply Permutation_length, Hfe.
Qed.

Lemma decodeFlights_excludes_bookkeeping_witness :
  (exists flights, MainGo.decodeFlights (VMap goodBatch) = Ok flights /\
                   List.length flights = 2%nat) /\
  (exists flights, Part0.decodeFlights (VMap goodBatch) = Ok flights /\
                   List.length flights = 2%nat).
Proof.
  assert (Hperm : Permutation goodBatch
            (("full_count", VFloat64 2) :: ("version", VFloat64 4) ::
             [("2d1e1f2a", VSlice goodStatus); ("2d1e1f2c", VSlice goodStatus)])).
  { unfold goodBatch. eapply Permutation_trans; [apply perm_swap |].
    apply perm_skip.
    apply Permutation_sym.
    apply (Permutation_cons_append
             [("2d1e1f2a", VSlice goodStatus); ("2d1e1f2c", VSlice goodStatus)]
             ("version", VFloat64 4)). }
  destruct (decodeFlights_excludes_bookkeeping goodBatch _ _ _ Hperm) as [H1 H2].
  - repeat constructor.
  - split; [apply H1 | apply H2]; repeat constructor.
Defined.

(** ** Narrowing of the altitude *)

(** [int] never leaves the range of Go's [int]. *)
Lemma int_range (f : float) : (minInt <= int f <= maxInt)%Z.
Proof.
  unfold int. destruct (truncate f) as [t |].
  - destruct ((minInt <=? t)%Z && (t <=? maxInt)%Z) eqn:E.
    + apply andb_prop in E as [E1 E2]. split; [apply Z.leb_le, E1 | apply Z.leb_le, E2].
    + unfold minInt, maxInt. lia.
  - unfold minInt, maxInt. lia.
Qed.

(** [truncate] is the integer part of the magnitude, with the sign put back:
    for [f = (-1)^s * m * 2^e], any [q >= 0] with [q <= m * 2^e < q + 1] is
    the magnitude of the result. *)
Lemma truncate_integer_part (f : float) (s : bool) (m : positive) (e q : Z) :
  Prim2SF f = S754_finite s m e ->
  (0 <= q)%Z ->
  (0 <= e -> q = Z.pos m * 2 ^ e)%Z ->
  (e < 0 -> q * 2 ^ (- e) <= Z.pos m < (q + 1) * 2 ^ (- e))%Z ->
  truncate f = Some (if s then (- q)%Z else q).
Proof.
  intros Hf Hq Hpos Hneg. unfold truncate. rewrite Hf. f_equal.
  assert (Hshift : Z.shiftl (Z.pos m) e = q).
  { destruct (Z.le_gt_cases 0 e) as [He | He].
    - rewrite Z.shiftl_mul_pow2 by exact He. symmetry. apply Hpos, He.
    - specialize (Hneg He).
      rewrite <- (Z.opp_involutive e) at 1. rewrite Z.shiftl_opp_r.
      rewrite Z.shiftr_div_pow2 by lia.
      assert (Hpow : (0 < 2 ^ (- e))%Z) by (apply Z.pow_pos_nonneg; lia).
      symmetry. apply (Z.div_unique_pos _ _ q (Z.pos m - q * 2 ^ (- e))); lia. }
  rewrite Hshift. reflexivity.
Qed.

(** C9, as amended.  Every decoded record carries [int] of the float at
    index 4 of its array.  [int] discards the fraction, truncating toward
    zero, whenever the integer part fits Go's [int]: 9999.9 becomes 9999 and
    -0.5 becomes 0.  Its result is always an [int], so an altitude whose
    integer part does not fit is not narrowed to its truncation. *)
Theorem decodePlane_altitude_truncated :
  (forall status plane,
      MainGo.decodePlane (VSlice status) = Ok plane ->
      exists a, nth_error status 4 = Some (VFloat64 a) /\
                MainGo.altitude plane = int a) /\
  (forall id status plane,
      Part0.decodePlane id (VSlice status) = Ok plane ->
      exists a, nth_error status 4 = Some (VFloat64 a) /\
                Part0.altitude plane = int a) /\
  (forall (a : float) (s : bool) (m : positive) (e q : Z),
      Prim2SF a = S754_finite s m e ->
      (0 <= q)%Z ->
      (0 <= e -> q = Z.pos m * 2 ^ e)%Z ->
      (e < 0 -> q * 2 ^ (- e) <= Z.pos m < (q + 1) * 2 ^ (- e))%Z ->
      (q <= maxInt)%Z ->
      int a = if s then (- q)%Z else q) /\
  (forall a : float, (minInt <= int a <= maxInt)%Z) /\
  int 9999.9 = 9999%Z /\
  int (-0.5) = 0%Z /\
  int 0.9 = 0%Z /\
  int (-9999.9) = (-9999)%Z /\
  MainGo.decodePlane (VSlice fractionalStatus) =
    Ok {| MainGo.icaoType := "B738"; MainGo.icaoAirline := "KLM";
          MainGo.iataDeparting := "LHR"; MainGo.iataArriving := "AMS";
          MainGo.longitude := -0.45; MainGo.latitude := 51.47;
          MainGo.altitude := 9999 |} /\
  Part0.decodePlane "2d1e1f2a" (VSlice fractionalStatus) =
    Ok {| Part0.fr24id := "2d1e1f2a"; Part0.longitude := -0.45;
          Part0.latitude := 51.47; Part0.altitude := 9999 |}.
Proof.
  split; [| split; [| split; [| split]]].
  - intros status plane H. unfold MainGo.decodePlane, index in H.
    cbn [assertSlice bind] in H.
    destruct (nth_error status 1) as [[] |]; try discriminate H.
    destruct (nth_error status 2) as [[] |]; try discriminate H.
    destruct (nth_error status 4) as [[| | a | | |] |]; try discriminate H.
    exists a. split; [reflexivity |].
    cbn [bind assertFloat64] in H.
    destruct (nth_error status 8) as [[] |]; try discriminate H.
    destruct (nth_error status 11) as [[] |]; try discriminate H.
    destruct (nth_error status 12) as [[] |]; try discriminate H.
    destruct (nth_error status 18) as [[] |]; try discriminate H.
    cbn [bind assertString] in H. injection H as <-. reflexivity.
  - intros id status plane H. unfold Part0.decodePlane, index in H.
    cbn [assertSlice bind] in H.
    destruct (nth_error status 1) as [[] |]; try discriminate H.
    destruct (nth_error status 2) as [[] |]; try discriminate H.
    destruct (nth_error status 4) as [[| | a | | |] |]; try discriminate H.
    exists a. split; [reflexivity |].
    cbn [bind assertFloat64] in H. injection H as <-. reflexivity.
  - intros a s m e q Hf Hq Hpos Hneg Hfit. unfold int.
    rewrite (truncate_integer_part a s m e q Hf Hq Hpos Hneg).
    assert (Hin : ((minInt <=? (if s then - q else q)) &&
                   ((if s then - q else q) <=? maxInt) = true)%Z).
    { apply andb_true_intro. unfold minInt, maxInt in *.
      split; apply Z.leb_le; destruct s; lia. }
    rewrite Hin. reflexivity.
  - exact int_range.
  - repeat split; reflexivity.
Qed.

(** The feed altitude 1e19 has the integer part 10^19, which no [int]
    holds: the decoded altitude is not the truncation of the feed's value. *)
Lemma decodePlane_huge_altitude_counterexample :
  truncate 1e19 = Some 10000000000000000000%Z /\
  int 1e19 <> 10000000000000000000%Z /\
  match Part0.decodePlane "2d1e1f2a" (VSlice hugeStatus) with
  | Ok plane => Part0.altitude plane <> 10000000000000000000%Z
  | _ => False
  end.
Proof.
  assert (H : int 1e19 <> 10000000000000000000%Z).
  { pose proof (int_range 1e19) as Hr. unfold maxInt in Hr. lia. }
  repeat split; [exact H | exact H].
Qed.

(** ** No candidates *)

(** C5.  On an empty candidate list the loop returns the zero record,
    [flightData{}] or [flightPosition{}], which is how the services say
    that there is none; [getClosestPlane] and [getClosestFlight] return it
    as an ordinary result, with no panic and no [log.Fatal]. *)
Theorem getClosest_no_candidates
  (M : GoMath) (W : World) (longitude latitude altitude : float) :
  MainGo.getFlights longitude latitude = Ok [] ->
  Part0.getFlights longitude latitude = Ok [] ->
  MainGo.getClosestPlane longitude latitude altitude = Ok MainGo.zero /\
  Part0.getClosestFlight longitude latitude altitude = Ok Part0.zero /\
  forall x y z : float,
    MainGo.closest x y z [] = MainGo.zero /\ Part0.closest x y z [] = Part0.zero.
Proof.
  intros H1 H2. unfold MainGo.getClosestPlane, Part0.getClosestFlight.
  destruct (pointToCartesian longitude latitude (feetToMeters altitude)) as [[x y] z].
  rewrite H1, H2. repeat split.
Qed.

Lemma getClosest_no_candidates_witness :
  @MainGo.getClosestPlane taylorMath emptySky 0 0 0 = Ok MainGo.zero /\
  @Part0.getClosestFlight taylorMath emptySky 0 0 0 = Ok Part0.zero /\
  forall x y z : float,
    @MainGo.closest taylorMath x y z [] = MainGo.zero /\
    @Part0.closest taylorMath x y z [] = Part0.zero.
Proof.
  apply (getClosest_no_candidates taylorMath emptySky 0 0 0); reflexivity.
Defined.

(** ** The formatted line *)

Lemma length_append (s t : string) :
  String.length (s ++ t) = (String.length s + String.length t)%nat.
Proof. induction s as [| c s IH]; cbn; [reflexivity | now rewrite IH]. Qed.

Lemma length_zero (s : string) : String.length s = 0%nat -> s = "".
Proof. destruct s; [reflexivity | discriminate]. Qed.

Lemma formatDetails_clauses (airline aircraft origin destination : string) :
  Part0.formatDetails airline aircraft origin destination =
  airline ++ " " ++ aircraft ++ " " ++ clause "from " origin ++ " " ++
  clause "to " destination.
Proof.
  unfold Part0.formatDetails, clause.
  destruct (String.eqb_spec origin ""), (String.eqb_spec destination "");
    subst; reflexivity.
Qed.

Lemma formatDetails_blank (airline aircraft origin destination : string) :
  Part0.formatDetails airline aircraft origin destination = "   " <->
  airline = "" /\ aircraft = "" /\ origin = "" /\ destination = "".
Proof.
  split.
  - intros H. apply (f_equal String.length) in H.
    rewrite formatDetails_clauses in H.
    rewrite !length_append in H. cbn [String.length] in H.
    assert (Ha : String.length airline = 0%nat) by lia.
    assert (Hb : String.length aircraft = 0%nat) by lia.
    assert (Ho : String.length (clause "from " origin) = 0%nat) by lia.
    assert (Hd : String.length (clause "to " destination) = 0%nat) by lia.
    repeat split; try (apply length_zero; assumption).
    + unfold clause in Ho. destruct (String.eqb_spec origin ""); [trivial | discriminate].
    + unfold clause in Hd. destruct (String.eqb_spec destination ""); [trivial | discriminate].
  - intros (-> & -> & -> & ->). reflexivity.
Qed.

(** C8, as amended.  In [src/unnamed/part_000] the line is
    [<airline> <aircraft> <from-clause> <to-clause>], the four parts always
    separated by one space each, where the from-clause is [from <origin>],
    or empty when the origin is empty, and likewise the to-clause; the
    handler answers [No aircraft found nearby] exactly when all four
    details are empty, and the formatted line otherwise.  In [src/main.go]
    the line always carries both [from] and [to], and the handler answers
    with it unchanged. *)
Theorem formatFlight_line (M : GoMath) (W : World) (r : request) :
  Method r = "GET" ->
  (forall airline aircraft origin destination : string,
      Part0.formatDetails airline aircraft origin destination =
      airline ++ " " ++ aircraft ++ " " ++
      (if String.eqb origin "" then "" else "from " ++ origin) ++ " " ++
      (if String.eqb destination "" then "" else "to " ++ destination) /\
      (origin <> "" -> destination <> "" ->
       Part0.formatDetails airline aircraft origin destination =
       airline ++ " " ++ aircraft ++ " from " ++ origin ++ " to " ++ destination) /\
      Part0.orNoAircraft (Part0.formatDetails airline aircraft origin destination) =
      (if allEmpty airline aircraft origin destination
       then "No aircraft found nearby"
       else Part0.formatDetails airline aircraft origin destination)) /\
  (forall resp,
      Part0.handler r = Ok resp ->
      exists flight airline aircraft origin destination,
        Part0.getFlightDetails (Part0.fr24id flight) =
          Ok (airline, aircraft, origin, destination) /\
        Body resp =
          Part0.orNoAircraft (Part0.formatDetails airline aircraft origin destination)) /\
  (forall flight : MainGo.flightData,
      MainGo.formatFlight flight =
      mapIndex icaoAirlines (MainGo.icaoAirline flight) ++ " " ++
      mapIndex icaoTypes (MainGo.icaoType flight) ++ " from " ++
      mapIndex iataAirports (MainGo.iataDeparting flight) ++ " to " ++
      mapIndex iataAirports (MainGo.iataArriving flight)) /\
  (forall resp,
      MainGo.handler r = Ok resp ->
      exists flight, Body resp = MainGo.formatFlight flight).
Proof.
  intros Hget. repeat split.
  - apply formatDetails_clauses.
  - intros Ho Hd. unfold Part0.formatDetails.
    destruct (String.eqb_spec origin ""), (String.eqb_spec destination "");
      try contradiction.
    reflexivity.
  - unfold Part0.orNoAircraft, allEmpty.
    destruct (String.eqb_spec (Part0.formatDetails airline aircraft origin destination) "   ")
      as [Hb | Hb].
    + apply formatDetails_blank in Hb as (-> & -> & -> & ->). reflexivity.
    + destruct (String.eqb_spec airline ""), (String.eqb_spec aircraft ""),
        (String.eqb_spec origin ""), (String.eqb_spec destination "");
        cbn [andb]; try reflexivity.
      exfalso. apply Hb. apply formatDetails_blank. auto.
  - intros resp H. unfold Part0.handler in H. rewrite Hget in H. cbn [String.eqb] in H.
    change (String.eqb "GET" "GET") with true in H. cbv iota in H.
    destruct (Part0.getClosestFlight _ _ _) as [flight | |]; try discriminate H.
    cbn [bind] in H. unfold Part0.formatFlight in H.
    destruct (Part0.getFlightDetails (Part0.fr24id flight))
      as [[[[airline aircraft] origin] destination] | |] eqn:Hd; try discriminate H.
    cbn [bind] in H. injection H as <-.
    exists flight, airline, aircraft, origin, destination. split; [exact Hd | reflexivity].
  - intros resp H. unfold MainGo.handler in H. rewrite Hget in H.
    change (String.eqb "GET" "GET") with true in H. cbv iota in H.
    destruct (MainGo.getClosestPlane _ _ _) as [flight | |]; try discriminate H.
    cbn [bind] in H. injection H as <-. exists flight. reflexivity.
Qed.

Lemma formatFlight_line_witness :
  exists flight airline aircraft origin destination,
    @Part0.getFlightDetails emptySky (Part0.fr24id flight) =
      Ok (airline, aircraft, origin, destination) /\
    "No aircraft found nearby" =
      Part0.orNoAircraft (Part0.formatDetails airline aircraft origin destination).
Proof.
  exact (proj1 (proj2 (formatFlight_line taylorMath emptySky bareGet eq_refl))
           {| Status := StatusOK; Body := "No aircraft found nearby" |} eq_refl).
Defined.

(** In [src/main.go] an unresolved origin keeps its [from], and a selection
    that found nothing is formatted like any other; in
    [src/unnamed/part_000] the omitted clause leaves its separator behind. *)
Lemma formatFlight_unresolved_counterexample :
  @MainGo.formatFlight emptySky
     {| MainGo.icaoType := "B738"; MainGo.icaoAirline := "KLM";
        MainGo.iataDeparting := ""; MainGo.iataArriving := "AMS";
        MainGo.longitude := 0; MainGo.latitude := 0; MainGo.altitude := 100 |} =
    "KLM Royal Dutch Airlines Boeing 737-800 from  to Amsterdam Schiphol" /\
  @MainGo.handler taylorMath emptySky bareGet =
    Ok {| Status := StatusOK; Body := "  from  to " |} /\
  Part0.formatDetails "KLM Royal Dutch Airlines" "Boeing 737-800" "" "Amsterdam Schiphol" =
    "KLM Royal Dutch Airlines Boeing 737-800  to Amsterdam Schiphol".
Proof. repeat split; reflexivity. Qed.

(** ** Query parameters that do not parse *)

Lemma stubWorld_spec (feed : value * option error) (details : FlightDetailsJSON) :
  StrconvSpec (stubWorld feed details).
Proof.
  split; cbn [ParseFloat stubWorld]; unfold stubParseFloat.
  - intros s f. destruct (String.eqb s "0"); [congruence |].
    destruct (String.eqb s "1e999"); congruence.
  - intros s f. destruct (String.eqb s "0"); [congruence |].
    destruct (String.eqb s "1e999"); [| congruence].
    intros H; injection H as <-. left; reflexivity.
  - reflexivity.
  - reflexivity.
Qed.

Lemma queryGet_absent (q : list (string * string)) (key : string) :
  (forall v, ~ In (key, v) q) -> queryGet q key = "".
Proof.
  induction q as [| [k v] q IH]; intros Habs; [reflexivity |].
  cbn [queryGet]. destruct (String.eqb_spec k key) as [-> | Hne].
  - exfalso. apply (Habs v). left; reflexivity.
  - apply IH. intros v' Hin. apply (Habs v'). right; exact Hin.
Qed.

(** C10, as amended.  On a GET the handler drops the error of each of the
    three [ParseFloat] calls and goes on with the value that came with it:
    its outcome is the one it has in a world where [ParseFloat] reports no
    error at all.  That value is 0 when the parameter is absent or is not
    a number, and an infinity when it is out of range.  The request is never
    rejected: whenever the handler returns, the status is 200. *)
Theorem handler_discards_parse_errors
  (M : GoMath) (W : World) (HW : StrconvSpec W) (r : request) :
  Method r = "GET" ->
  let param := fun key => ParseFloat (queryGet (Query r) key) in
  MainGo.handler r =
    (flight <- MainGo.getClosestPlane (fst (param "longitude"))
                 (fst (param "latitude")) (fst (param "altitude")) ;;
     Ok (Fprint (MainGo.formatFlight flight))) /\
  Part0.handler r =
    (flight <- Part0.getClosestFlight (fst (param "longitude"))
                 (fst (param "latitude")) (fst (param "altitude")) ;;
     response <- Part0.formatFlight (Part0.fr24id flight) ;;
     Ok (Fprint (Part0.orNoAircraft response))) /\
  @MainGo.handler M W r = @MainGo.handler M (silent W) r /\
  @Part0.handler M W r = @Part0.handler M (silent W) r /\
  (forall key, (forall v, ~ In (key, v) (Query r)) -> param key = (0, Some ErrSyntax)) /\
  (forall key, snd (param key) = Some ErrSyntax -> fst (param key) = 0) /\
  (forall key, snd (param key) = Some ErrRange ->
               fst (param key) = infinity \/ fst (param key) = neg_infinity) /\
  (forall resp, MainGo.handler r = Ok resp -> Status resp = StatusOK) /\
  (forall resp, Part0.handler r = Ok resp -> Status resp = StatusOK).
Proof.
  intros Hget param.
  assert (Hm : MainGo.handler r =
    (flight <- MainGo.getClosestPlane (fst (param "longitude"))
                 (fst (param "latitude")) (fst (param "altitude")) ;;
     Ok (Fprint (MainGo.formatFlight flight)))).
  { unfold MainGo.handler. rewrite Hget. reflexivity. }
  assert (Hp : Part0.handler r =
    (flight <- Part0.getClosestFlight (fst (param "longitude"))
                 (fst (param "latitude")) (fst (param "altitude")) ;;
     response <- Part0.formatFlight (Part0.fr24id flight) ;;
     Ok (Fprint (Part0.orNoAircraft response)))).
  { unfold Part0.handler. rewrite Hget. reflexivity. }
  split; [exact Hm |]. split; [exact Hp |].
  split; [reflexivity |]. split; [reflexivity |].
  split; [| split; [| split; [| split]]].
  - intros key Habs. unfold param. rewrite (queryGet_absent _ _ Habs).
    pose proof ParseFloat_empty as He.
    destruct (ParseFloat "") as [f e] eqn:Hpf. cbn [snd] in He. subst e.
    now rewrite (ParseFloat_syntax _ _ Hpf).
  - intros key Hs. destruct (param key) as [f e] eqn:Hpf. cbn [snd fst] in *. subst e.
    apply (ParseFloat_syntax _ _ Hpf).
  - intros key Hs. destruct (param key) as [f e] eqn:Hpf. cbn [snd fst] in *. subst e.
    apply (ParseFloat_range _ _ Hpf).
  - intros resp H. rewrite Hm in H.
    destruct (MainGo.getClosestPlane _ _ _); try discriminate H.
    cbn [bind] in H. injection H as <-. reflexivity.
  - intros resp H. rewrite Hp in H.
    destruct (Part0.getClosestFlight _ _ _); try discriminate H.
    cbn [bind] in H. destruct (Part0.formatFlight _); try discriminate H.
    cbn [bind] in H. injection H as <-. reflexivity.
Qed.

Lemma handler_discards_parse_errors_witness :
  @MainGo.handler taylorMath emptySky bareGet =
    @MainGo.handler taylorMath (silent emptySky) bareGet /\
  @ParseFloat emptySky (queryGet (Query bareGet) "altitude") = (0, Some ErrSyntax).
Proof.
  pose proof (handler_discards_parse_errors taylorMath emptySky
                (stubWorld_spec _ _) bareGet eq_refl) as H.
  split.
  - exact (proj1 (proj2 (proj2 H))).
  - apply (proj1 (proj2 (proj2 (proj2 (proj2 H))))). intros v [].
Defined.

(** The query [altitude=1e999] fails to parse, with a range error, and the
    handler goes on with [+Inf], not with 0: above the origin point every
    distance is then NaN and the zero record comes back, where an altitude
    of 0 selects the flight. *)
Lemma handler_range_error_counterexample :
  everyWorld (fun M W =>
    let r := {| Method := "GET"; Query := [("altitude", "1e999")] |} in
    ParseFloat (queryGet (Query r) "altitude") = (infinity, Some ErrRange) /\
    MainGo.handler r =
      (flight <- MainGo.getClosestPlane 0 0 infinity ;;
       Ok (Fprint (MainGo.formatFlight flight))) /\
    (let '(x, y, z) := pointToCartesian 0 0 (feetToMeters infinity) in
     MainGo.closest x y z [planeAt 100] = MainGo.zero) /\
    (let '(x, y, z) := pointToCartesian 0 0 (feetToMeters 0) in
     MainGo.closest x y z [planeAt 100] = planeAt 100)).
Proof.
  intros M W HM HW. cbv zeta. cbn [Query queryGet String.eqb]. 
  change (String.eqb "altitude" "altitude") with true.
  change (String.eqb "altitude" "longitude") with false.
  change (String.eqb "altitude" "latitude") with false. cbv iota.
  assert (H0 : ParseFloat "" = (0, Some ErrSyntax)).
  { pose proof ParseFloat_empty as He.
    destruct (ParseFloat "") as [f e] eqn:Hpf. cbn [snd] in He. subst e.
    now rewrite (ParseFloat_syntax _ _ Hpf). }
  split; [apply ParseFloat_1e999 |]. split.
  - unfold MainGo.handler. cbn [Method Query queryGet].
    change (String.eqb "GET" "GET") with true.
    change (String.eqb "altitude" "altitude") with true.
    change (String.eqb "altitude" "longitude") with false.
    change (String.eqb "altitude" "latitude") with false. cbv iota.
    rewrite H0, ParseFloat_1e999. reflexivity.
  - rewrite !pointToCartesian_origin. split.
    + apply scan_none. constructor; [| constructor].
      rewrite distanceToFlight_planeAt by reflexivity. reflexivity.
    + unfold MainGo.closest, scan. cbn [fold_left]. unfold scanStep.
      rewrite distanceToFlight_planeAt by reflexivity. reflexivity.
Qed.

(** * Further properties of the two services *)

(** ** The lookup tables *)

Lemma mapIndex_filter_other (m : list (string * string)) (k key : string) :
  k <> key ->
  mapIndex (filter (fun kv => negb (String.eqb (fst kv) k)) m) key = mapIndex m key.
Proof.
  intros Hne. induction m as [| [k' v'] m IH]; [reflexivity |].
  cbn [filter fst]. destruct (String.eqb_spec k' k) as [-> | Hk]; cbn [negb].
  - cbn [mapIndex]. destruct (String.eqb_spec k key); [contradiction | exact IH].
  - cbn [mapIndex]. destruct (String.eqb k' key); [reflexivity | exact IH].
Qed.

Lemma mapIndex_mapAssign (m : list (string * string)) (k v key : string) :
  mapIndex (mapAssign k v m) key = if String.eqb k key then v else mapIndex m key.
Proof.
  unfold mapAssign. cbn [mapIndex].
  destruct (String.eqb_spec k key) as [-> | Hne]; [reflexivity |].
  apply mapIndex_filter_other; exact Hne.
Qed.

Lemma rangeRecords_lookup (records : list (list string)) (key : string) :
  forall hashTable m,
    rangeRecords records hashTable = Ok m ->
    (Forall (fun line => keyed key line = false) records ->
     mapIndex m key = mapIndex hashTable key) /\
    (forall pre line post,
        records = (pre ++ line :: post)%list ->
        keyed key line = true ->
        Forall (fun l => keyed key l = false) post ->
        nth_error line 1 = Some (mapIndex m key)).
Proof.
  induction records as [| row rest IH]; intros hashTable m Hrun.
  - injection Hrun as <-. split; [reflexivity |].
    intros pre line post Hsplit. destruct pre; discriminate Hsplit.
  - cbn [rangeRecords] in Hrun. unfold field in Hrun.
    destruct row as [| k [| v tail]]; cbn [nth_error bind] in Hrun;
      try discriminate Hrun.
    destruct (IH _ _ Hrun) as [Hnone Hlast]. split.
    + intros Hall. inversion Hall as [| ? ? Hrow Hrest]; subst.
      rewrite (Hnone Hrest), mapIndex_mapAssign.
      cbn [keyed] in Hrow. now rewrite Hrow.
    + intros pre line post Hsplit Hkey Hpost.
      destruct pre as [| row' pre]; cbn [app] in Hsplit;
        inversion Hsplit; subst.
      * rewrite (Hnone Hpost), mapIndex_mapAssign.
        cbn [keyed] in Hkey. rewrite Hkey. reflexivity.
      * eapply Hlast; [reflexivity | exact Hkey | exact Hpost].
Qed.

(** X1.  A table built by [mapRecords] answers a lookup with the second
    field of the last row whose first field is the key, and with the empty
    string when no row has that first field. *)
Theorem mapRecords_last_row_wins
  (records : list (list string)) (m : list (string * string)) (key : string) :
  mapRecords records = Ok m ->
  (Forall (fun line => keyed key line = false) records -> mapIndex m key = "") /\
  (forall pre line post,
      records = (pre ++ line :: post)%list ->
      keyed key line = true ->
      Forall (fun l => keyed key l = false) post ->
      nth_error line 1 = Some (mapIndex m key)).
Proof.
  intros Hrun. exact (rangeRecords_lookup records key [] m Hrun).
Qed.

Lemma mapRecords_last_row_wins_witness :
  nth_error ["KLM"; "KLM Royal Dutch Airlines"] 1 =
  Some (mapIndex [("KLM", "KLM Royal Dutch Airlines"); ("BAW", "British Airways")] "KLM").
Proof.
  exact (proj2 (mapRecords_last_row_wins
                  [["KLM"; "KLM"]; ["BAW"; "British Airways"];
                   ["KLM"; "KLM Royal Dutch Airlines"]]
                  [("KLM", "KLM Royal Dutch Airlines"); ("BAW", "British Airways")]
                  "KLM" eq_refl)
           [["KLM"; "KLM"]; ["BAW"; "British Airways"]]
           ["KLM"; "KLM Royal Dutch Airlines"] [] eq_refl eq_refl (Forall_nil _)).
Defined.

Lemma rangeRecords_returns (records : list (list string)) :
  forall hashTable,
    returned (rangeRecords records hashTable) =
    forallb (fun line => (2 <=? List.length line)%nat) records.
Proof.
  induction records as [| row rest IH]; intros hashTable; [reflexivity |].
  cbn [rangeRecords forallb]. unfold field.
  destruct row as [| k [| v tail]]; cbn [nth_error bind]; try reflexivity.
  rewrite IH. reflexivity.
Qed.

Lemma rangeRecords_fails (records : list (list string)) :
  forall hashTable,
    returned (rangeRecords records hashTable) = false ->
    rangeRecords records hashTable = Panic IndexOutOfRange.
Proof.
  induction records as [| row rest IH]; intros hashTable; [discriminate |].
  cbn [rangeRecords]. unfold field.
  destruct row as [| k [| v tail]]; cbn [nth_error bind]; try reflexivity.
  apply IH.
Qed.

(** X2.  [mapRecords] returns a table exactly when every row has at least
    two fields; a row with fewer makes it panic with an index out of range,
    whatever the rows before and after it. *)
Theorem mapRecords_needs_two_fields (records : list (list string)) :
  (Forall (fun line => (2 <= List.length line)%nat) records ->
   exists m, mapRecords records = Ok m) /\
  (Exists (fun line => (List.length line < 2)%nat) records ->
   mapRecords records = Panic IndexOutOfRange).
Proof.
  unfold mapRecords.
  pose proof (rangeRecords_returns records []) as Hret.
  split.
  - intros Hall.
    assert (Hb : forallb (fun line => (2 <=? List.length line)%nat) records = true).
    { apply forallb_forall. rewrite Forall_forall in Hall.
      intros line Hin. apply Nat.leb_le, Hall, Hin. }
    rewrite Hb in Hret.
    destruct (rangeRecords records []) as [m | |]; try discriminate Hret.
    exists m; reflexivity.
  - intros Hex.
    assert (Hb : forallb (fun line => (2 <=? List.length line)%nat) records = false).
    { destruct (forallb _ records) eqn:E; [| reflexivity]. exfalso.
      rewrite forallb_forall in E. apply Exists_exists in Hex as (line & Hin & Hlt).
      specialize (E line Hin). apply Nat.leb_le in E. lia. }
    rewrite Hb in Hret. apply rangeRecords_fails, Hret.
Qed.

(** ** The session cookie *)

Lemma splitPieces_first (sep : ascii) (s : string) :
  exists rest,
    s = fst (splitPieces sep s) ++ rest /\
    (rest = "" \/ exists t, rest = String sep t) /\
    occurs sep (fst (splitPieces sep s)) = false.
Proof.
  induction s as [| c s (rest & Heq & Hrest & Hocc)].
  - exists "". repeat split; auto.
  - cbn [splitPieces]. destruct (splitPieces sep s) as [piece pieces].
    cbn [fst] in *. destruct (Ascii.eqb_spec c sep) as [-> | Hne].
    + exists (String sep s). cbn [fst]. repeat split; eauto.
    + exists rest. cbn [fst append occurs]. repeat split; auto.
      * now rewrite Heq at 1.
      * apply Ascii.eqb_neq in Hne. now rewrite Hne.
Qed.

(** X3.  [getCookie] ends the process when the GET fails, panics with an
    index out of range when the response carries no Set-Cookie header, and
    otherwise returns the first Set-Cookie value up to its first semicolon:
    a prefix of that value with no semicolon in it, followed in the value
    by nothing or by a semicolon.  The later header values are not read. *)
Theorem getCookie_first_attribute :
  getCookie Fatal = Fatal /\
  getCookie (Ok []) = Panic IndexOutOfRange /\
  forall first others,
    exists id rest,
      getCookie (Ok (first :: others)) = Ok id /\
      first = id ++ rest /\
      (rest = "" \/ exists t, rest = String ";" t) /\
      occurs ";" id = false.
Proof.
  split; [reflexivity |]. split; [reflexivity |].
  intros first others.
  destruct (splitPieces_first ";" first) as (rest & Heq & Hrest & Hocc).
  exists (fst (splitPieces ";" first)), rest.
  split; [| auto].
  unfold getCookie, Split. cbn [bind field nth_error].
  destruct (splitPieces ";" first) as [piece pieces]. reflexivity.
Qed.

(** ** The handlers *)

(** X4.  Any method other than GET, compared exactly, is answered with 405
    and the body [Incorrect method], in both variants and in every world:
    nothing is parsed and nothing is fetched. *)
Theorem handler_other_method (M : GoMath) (W : World) (r : request) :
  Method r <> "GET" ->
  MainGo.handler r =
    Ok {| Status := 405; Body := "Incorrect method" ++ String "010" "" |} /\
  Part0.handler r =
    Ok {| Status := 405; Body := "Incorrect method" ++ String "010" "" |}.
Proof.
  intros Hm. unfold MainGo.handler, Part0.handler.
  destruct (String.eqb_spec (Method r) "GET"); [contradiction |].
  split; reflexivity.
Qed.

Lemma handler_other_method_witness :
  @MainGo.handler taylorMath brokenFeed {| Method := "get"; Query := [] |} =
    Ok {| Status := 405; Body := "Incorrect method" ++ String "010" "" |} /\
  @Part0.handler taylorMath brokenFeed {| Method := "get"; Query := [] |} =
    Ok {| Status := 405; Body := "Incorrect method" ++ String "010" "" |}.
Proof.
  apply (handler_other_method taylorMath brokenFeed). discriminate.
Defined.

Lemma handler_httpGet_fatal (M : GoMath) (W : World) (r : request) :
  Method r = "GET" ->
  (forall url, httpGet url = Fatal) ->
  MainGo.handler r = Fatal /\ Part0.handler r = Fatal.
Proof.
  intros Hget Hdown. split.
  - unfold MainGo.handler. rewrite Hget. change (String.eqb "GET" "GET") with true.
    cbv iota zeta. unfold MainGo.getClosestPlane.
    destruct (pointToCartesian _ _ _) as [[x y] z].
    unfold MainGo.getFlights. rewrite Hdown. reflexivity.
  - unfold Part0.handler. rewrite Hget. change (String.eqb "GET" "GET") with true.
    cbv iota zeta. unfold Part0.getClosestFlight.
    destruct (pointToCartesian _ _ _) as [[x y] z].
    unfold Part0.getFlights. rewrite Hdown. reflexivity.
Qed.

(** X5.  The HTTP exchange of the services sends a GET for the URL with the
    session cookie in its Cookie header.  It ends the process
    ([log.Fatal]) exactly when the request cannot be built, when sending it
    fails, or when reading the body fails; it never panics; otherwise it
    returns the body that was read.  So a GET to either handler ends the
    process when no request is answered. *)
Theorem handler_fetch_failure_is_fatal
  (M : GoMath) (N : Network) (W : World) (r : request) :
  Method r = "GET" ->
  (forall url,
      let req := {| reqMethod := "GET"; reqURL := url; reqCookie := fr24idCookie |} in
      (Exchange.httpGet url = Fatal <->
       NewRequestError "GET" url <> None \/
       (exists e, Do req = Failed e) \/
       (exists resp e, Do req = Done resp /\ ReadAll resp = Failed e)) /\
      (forall body,
          Exchange.httpGet url = Ok body <->
          NewRequestError "GET" url = None /\
          exists resp, Do req = Done resp /\ ReadAll resp = Done body) /\
      (forall p, Exchange.httpGet url <> Panic p)) /\
  ((forall req, exists e, Do req = Failed e) ->
   @MainGo.handler M (onNetwork N W) r = Fatal /\
   @Part0.handler M (onNetwork N W) r = Fatal).
Proof.
  intros Hget. split.
  - intros url req. unfold Exchange.httpGet, Exchange.NewRequest.
    destruct (NewRequestError "GET" url) as [e0 |].
    + split; [| split].
      * split; [intros _; left; discriminate | reflexivity].
      * intros body. split; [discriminate | intros [Hn _]; discriminate Hn].
      * discriminate.
    + change (Exchange.setCookie
                {| reqMethod := "GET"; reqURL := url; reqCookie := "" |}
                fr24idCookie) with req.
      destruct (Do req) as [resp | e1].
      * destruct (ReadAll resp) as [body | e2] eqn:Hread.
        -- split; [| split].
           ++ split; [discriminate |].
              intros [Hn | [(e & Hd) | (resp' & e & Hd & Hr)]].
              ** contradiction.
              ** discriminate Hd.
              ** injection Hd as <-. rewrite Hread in Hr. discriminate Hr.
           ++ intros body'. split.
              ** intros Hb. injection Hb as <-. split; [reflexivity |].
                 exists resp. split; [reflexivity | exact Hread].
              ** intros (_ & resp' & Hd & Hr). injection Hd as <-.
                 rewrite Hread in Hr. injection Hr as <-. reflexivity.
           ++ discriminate.
        -- split; [| split].
           ++ split; [| reflexivity].
              intros _. right. right. exists resp, e2. split; [reflexivity | exact Hread].
           ++ intros body. split; [discriminate |].
              intros (_ & resp' & Hd & Hr). injection Hd as <-.
              rewrite Hread in Hr. discriminate Hr.
           ++ discriminate.
      * split; [| split].
        -- split; [| reflexivity]. intros _. right. left. exists e1. reflexivity.
        -- intros body. split; [discriminate |].
           intros (_ & resp' & Hd & _). discriminate Hd.
        -- discriminate.
  - intros Hdown. apply handler_httpGet_fatal; [exact Hget |].
    intros url. cbn [httpGet onNetwork].
    unfold Exchange.httpGet, Exchange.NewRequest.
    destruct (NewRequestError "GET" url); [reflexivity |].
    destruct (Hdown (Exchange.setCookie
                       {| reqMethod := "GET"; reqURL := url; reqCookie := "" |}
                       fr24idCookie)) as (e & ->).
    reflexivity.
Qed.

Lemma handler_fetch_failure_is_fatal_witness :
  @MainGo.handler taylorMath (onNetwork unplugged emptySky) bareGet = Fatal /\
  @Part0.handler taylorMath (onNetwork unplugged emptySky) bareGet = Fatal /\
  @Exchange.httpGet echoing "https://www.flightradar24.com" =
    Ok [Byte.x7b; Byte.x7d].
Proof.
  pose proof (handler_fetch_failure_is_fatal taylorMath unplugged emptySky bareGet eq_refl)
    as [_ Hdown].
  pose proof (handler_fetch_failure_is_fatal taylorMath echoing emptySky bareGet eq_refl)
    as [Hx _].
  destruct (Hdown (fun _ => ex_intro _ ErrDecode eq_refl)) as [H1 H2].
  split; [exact H1 |]. split; [exact H2 |].
  apply (proj1 (proj2 (Hx "https://www.flightradar24.com"))).
  split; [reflexivity |]. eexists. split; reflexivity.
Defined.

(** ** The decoder, entry by entry *)

Lemma Part0_rangeFlights_Forall2 (l : list (string * value)) :
  forall acc flights,
    Part0.rangeFlights l acc = Ok flights <->
    exists fl,
      flights = (acc ++ fl)%list /\
      Forall2 (fun kv f => Part0.decodePlane (fst kv) (snd kv) = Ok f) l fl.
Proof.
  induction l as [| [id v] l IH]; intros acc flights; cbn [Part0.rangeFlights].
  - split.
    + intros H. injection H as <-. exists []. now rewrite app_nil_r.
    + intros (fl & -> & H2). inversion H2. now rewrite app_nil_r.
  - split.
    + destruct (Part0.decodePlane id v) as [p | |] eqn:Hd; try discriminate.
      cbn [bind]. intros H. apply IH in H as (fl & -> & H2).
      exists (p :: fl). rewrite <- app_assoc. split; [reflexivity |].
      constructor; assumption.
    + intros (fl & -> & H2). inversion H2 as [| ? p ? fl' Hd H2']; subst.
      cbn [fst snd] in Hd. rewrite Hd. cbn [bind]. apply IH.
      exists fl'. rewrite <- app_assoc. split; [reflexivity | assumption].
Qed.

Lemma MainGo_rangeFlights_Forall2 (l : list (string * value)) :
  forall acc flights,
    MainGo.rangeFlights l acc = Ok flights <->
    exists fl,
      flights = (acc ++ fl)%list /\
      Forall2 (fun kv f => MainGo.decodePlane (snd kv) = Ok f) l fl.
Proof.
  induction l as [| [id v] l IH]; intros acc flights; cbn [MainGo.rangeFlights].
  - split.
    + intros H. injection H as <-. exists []. now rewrite app_nil_r.
    + intros (fl & -> & H2). inversion H2. now rewrite app_nil_r.
  - split.
    + destruct (MainGo.decodePlane v) as [p | |] eqn:Hd; try discriminate.
      cbn [bind]. intros H. apply IH in H as (fl & -> & H2).
      exists (p :: fl). rewrite <- app_assoc. split; [reflexivity |].
      constructor; assumption.
    + intros (fl & -> & H2). inversion H2 as [| ? p ? fl' Hd H2']; subst.
      cbn [snd] in Hd. rewrite Hd. cbn [bind]. apply IH.
      exists fl'. rewrite <- app_assoc. split; [reflexivity | assumption].
Qed.

Lemma decodeFlights_Forall2 (m : list (string * value)) :
  (forall flights,
      MainGo.decodeFlights (VMap m) = Ok flights <->
      Forall2 (fun kv f => MainGo.decodePlane (snd kv) = Ok f)
              (flightEntries m) flights) /\
  (forall flights,
      Part0.decodeFlights (VMap m) = Ok flights <->
      Forall2 (fun kv f => Part0.decodePlane (fst kv) (snd kv) = Ok f)
              (flightEntries m) flights).
Proof.
  split; intros flights.
  - rewrite MainGo_decodeFlights_map, MainGo_rangeFlights_Forall2. split.
    + intros (fl & -> & H). exact H.
    + intros H. exists flights. split; [reflexivity | exact H].
  - rewrite Part0_decodeFlights_map, Part0_rangeFlights_Forall2. split.
    + intros (fl & -> & H). exact H.
    + intros H. exists flights. split; [reflexivity | exact H].
Qed.

(** X6.  A batch decodes to a list of flights exactly when that list
    matches its flight entries one for one, in the order the map is
    visited, each flight being the decoding of its entry; the values under
    [full_count] and [version] play no part. *)
Theorem decodeFlights_entry_by_entry (m : list (string * value)) :
  (forall flights,
      MainGo.decodeFlights (VMap m) = Ok flights <->
      Forall2 (fun kv f => MainGo.decodePlane (snd kv) = Ok f)
              (flightEntries m) flights) /\
  (forall flights,
      Part0.decodeFlights (VMap m) = Ok flights <->
      Forall2 (fun kv f => Part0.decodePlane (fst kv) (snd kv) = Ok f)
              (flightEntries m) flights).
Proof. exact (decodeFlights_Forall2 m). Qed.

Lemma Part0_decodePlane_id (id : string) (v : value) (f : Part0.flightPosition) :
  Part0.decodePlane id v = Ok f -> Part0.fr24id f = id.
Proof.
  destruct v; try discriminate. unfold Part0.decodePlane, index.
  cbn [assertSlice bind].
  destruct (nth_error l 1) as [[] |]; try discriminate.
  destruct (nth_error l 2) as [[] |]; try discriminate.
  destruct (nth_error l 4) as [[] |]; try discriminate.
  cbn [bind assertFloat64]. intros H. injection H as <-. reflexivity.
Qed.

(** X7.  In [src/unnamed/part_000] the identifiers of the decoded flights
    are the keys of the batch other than [full_count] and [version], in the
    order the map is visited: no flight is ever named after a bookkeeping
    key. *)
Theorem decodeFlights_ids_are_keys
  (m : list (string * value)) (flights : list Part0.flightPosition) :
  Part0.decodeFlights (VMap m) = Ok flights ->
  map Part0.fr24id flights = map fst (flightEntries m) /\
  Forall (fun f => bookkeeping (Part0.fr24id f) = false) flights.
Proof.
  intros H. apply (proj2 (decodeFlights_Forall2 m)) in H.
  assert (Hids : map Part0.fr24id flights = map fst (flightEntries m)).
  { induction H as [| kv f l fl Hd _ IH]; [reflexivity |].
    cbn [map]. rewrite (Part0_decodePlane_id _ _ _ Hd), IH. reflexivity. }
  split; [exact Hids |].
  apply Forall_forall. intros f Hin.
  apply (in_map Part0.fr24id) in Hin. rewrite Hids in Hin.
  apply in_map_iff in Hin as (kv & <- & Hkv).
  apply filter_In in Hkv as [_ Hk]. now apply negb_true_iff in Hk.
Qed.

Lemma decodeFlights_ids_are_keys_witness :
  map Part0.fr24id
      [{| Part0.fr24id := "2d1e1f2a"; Part0.longitude := -0.45;
          Part0.latitude := 51.47; Part0.altitude := 3500 |};
       {| Part0.fr24id := "2d1e1f2c"; Part0.longitude := -0.45;
          Part0.latitude := 51.47; Part0.altitude := 3500 |}] =
  map fst (flightEntries goodBatch).
Proof.
  exact (proj1 (decodeFlights_ids_are_keys goodBatch _ eq_refl)).
Defined.

(** X8.  [src/main.go] reads index 18 of every row: a row of fewer than 19
    positions makes its decoding panic.  [src/unnamed/part_000] reads
    indices 1, 2 and 4 only: what a row holds from index 5 on changes
    nothing, and a row of five numbers decodes. *)
Theorem decodePlane_positions_read (status : list value) (id : string) :
  ((List.length status < 19)%nat ->
   exists p, MainGo.decodePlane (VSlice status) = Panic p) /\
  Part0.decodePlane id (VSlice status) =
    Part0.decodePlane id (VSlice (firstn 5 status)) /\
  forall a lat lon b alt,
    Part0.decodePlane id
      (VSlice [a; VFloat64 lat; VFloat64 lon; b; VFloat64 alt]) =
    Ok {| Part0.fr24id := id; Part0.longitude := lon; Part0.latitude := lat;
          Part0.altitude := int alt |}.
Proof.
  split; [| split].
  - intros Hlen.
    pose proof (MainGo_decodePlane_returns (VSlice status)) as Hret.
    pose proof (MainGo_decodePlane_not_fatal (VSlice status)) as Hnf.
    assert (Hshape : dataShaped (VSlice status) = false).
    { cbn [dataShaped].
      assert (H18 : nth_error status 18 = None) by (apply nth_error_None; lia).
      rewrite H18. cbn [isString]. apply andb_false_r. }
    rewrite Hshape in Hret.
    destruct (MainGo.decodePlane (VSlice status)) as [f | p |];
      [discriminate Hret | exists p; reflexivity | contradiction].
  - unfold Part0.decodePlane, index. cbn [assertSlice bind].
    rewrite !nth_error_firstn. reflexivity.
  - intros. reflexivity.
Qed.

(** ** Candidates out of reach *)

Lemma not_below_Inf (a m : float) : (a <? Inf) = false -> (a <? m) = false.
Proof.
  intros Hinf. destruct (a <? m) eqn:Hlt; [| reflexivity].
  assert (H : (a <? Inf) = true); [| rewrite H in Hinf; discriminate].
  apply ltb_rank in Hlt as (ra & rm & Ha & Hm & Hlt).
  apply ltb_rank. exists ra, (2, 0, 0)%Z. split; [exact Ha |]. split; [reflexivity |].
  destruct (Prim2SF a) as [sa | sa | | sa ma ea], (Prim2SF m) as [sm | sm | | sm mm em];
    try destruct sa; try destruct sm; cbn [rank] in Ha, Hm; try discriminate;
    injection Ha as <-; injection Hm as <-; unfold lexLt in *; lia.
Qed.

Section ScanReach.
Context {M : GoMath} {flight : Type}.
Variables (longitudeOf latitudeOf : flight -> float) (altitudeOf : flight -> Z).
Variables x y z : float.

Lemma fold_scanStep_filter (flights : list flight) :
  forall state,
    fold_left (scanStep longitudeOf latitudeOf altitudeOf x y z) flights state =
    fold_left (scanStep longitudeOf latitudeOf altitudeOf x y z)
      (filter (fun f => distanceToFlight longitudeOf latitudeOf altitudeOf x y z f <? Inf)
              flights) state.
Proof.
  induction flights as [| f rest IH]; intros state; [reflexivity |].
  cbn [filter fold_left].
  destruct (distanceToFlight longitudeOf latitudeOf altitudeOf x y z f <? Inf) eqn:Hf.
  - cbn [fold_left]. apply IH.
  - replace (scanStep longitudeOf latitudeOf altitudeOf x y z state f) with state.
    + apply IH.
    + unfold scanStep. now rewrite (not_below_Inf _ (fst state) Hf).
Qed.

End ScanReach.

(** X9.  Candidates whose computed distance does not compare below [+Inf]
    (it is NaN or [+Inf]) have no influence on the selection: removing them
    from the list, wherever they stand, leaves the result of both selectors
    unchanged. *)
Theorem closest_ignores_unreachable (M : GoMath) (x y z : float) :
  (forall flights : list MainGo.flightData,
      MainGo.closest x y z flights =
      MainGo.closest x y z
        (filter (fun f => distanceToFlight MainGo.longitude MainGo.latitude
                            MainGo.altitude x y z f <? Inf) flights)) /\
  (forall flights : list Part0.flightPosition,
      Part0.closest x y z flights =
      Part0.closest x y z
        (filter (fun f => distanceToFlight Part0.longitude Part0.latitude
                            Part0.altitude x y z f <? Inf) flights)).
Proof.
  split; intros flights.
  - unfold MainGo.closest, scan. now rewrite fold_scanStep_filter.
  - unfold Part0.closest, scan. now rewrite fold_scanStep_filter.
Qed.

(** ** The metric *)

Lemma SFabs_binary_round_aux (s : bool) (m e : Z) (l : location) :
  SFabs (binary_round_aux prec emax s m e l) =
  SFabs (binary_round_aux prec emax false m e l).
Proof.
  unfold binary_round_aux.
  destruct (shr_fexp prec emax m e l) as [mrs e'].
  destruct (shr_fexp prec emax _ e' loc_Exact) as [mrs' e''].
  destruct (shr_m mrs'); try reflexivity.
  destruct (e'' <=? emax - prec)%Z; reflexivity.
Qed.

Lemma SFabs_binary_normalize (n e : Z) :
  SFabs (binary_normalize prec emax (- n) e false) =
  SFabs (binary_normalize prec emax n e false).
Proof.
  destruct n as [| p | p]; cbn [Z.opp binary_normalize]; try reflexivity;
    unfold binary_round;
    destruct (shl_align p e _) as [mz ez];
    [rewrite SFabs_binary_round_aux | symmetry; rewrite SFabs_binary_round_aux];
    reflexivity.
Qed.

Lemma SFabs_SFsub (a b : spec_float) :
  SFabs (SFsub prec emax a b) = SFabs (SFsub prec emax b a).
Proof.
  destruct a as [sa | sa | | sa ma ea], b as [sb | sb | | sb mb eb];
    try destruct sa; try destruct sb; try reflexivity;
    cbn [SFsub]; rewrite (Z.min_comm eb ea);
    rewrite <- SFabs_binary_normalize; f_equal; f_equal; lia.
Qed.

Lemma abs_sub (a b : float) : abs (a - b) = abs (b - a).
Proof.
  apply Prim2SF_inj. rewrite !abs_spec, !sub_spec. apply SFabs_SFsub.
Qed.

Lemma mul_abs (a : float) : a * a = abs a * abs a.
Proof.
  apply Prim2SF_inj. rewrite !mul_spec, abs_spec. unfold SF64mul.
  destruct (Prim2SF a) as [s | s | | s m e]; try destruct s; reflexivity.
Qed.

(** X10.  The metric is symmetric: the distance from one point to another
    is the distance back, for all floats, infinities and NaN included.  It
    rests on [math.Pow(x, 2)] being the same for [x] and for [-x]. *)
Theorem distance_symmetric (M : GoMath) (x1 y1 z1 x2 y2 z2 : float) :
  (forall a, Pow a 2 = Pow (abs a) 2) ->
  distance x1 y1 z1 x2 y2 z2 = distance x2 y2 z2 x1 y1 z1.
Proof.
  intros Heven. unfold distance.
  rewrite (Heven (x2 - x1)), (Heven (y2 - y1)), (Heven (z2 - z1)).
  rewrite (Heven (x1 - x2)), (Heven (y1 - y2)), (Heven (z1 - z2)).
  rewrite (abs_sub x2 x1), (abs_sub y2 y1), (abs_sub z2 z1). reflexivity.
Qed.

Lemma distance_symmetric_witness :
  @distance taylorMath 6378137 0 0 6378237 3 4 =
  @distance taylorMath 6378237 3 4 6378137 0 0.
Proof.
  apply (distance_symmetric taylorMath).
  intros a. cbn [Pow taylorMath]. apply mul_abs.
Defined.

Lemma finite_class (a : float) :
  is_finite a = true ->
  (exists s, Prim2SF a = S754_zero s) \/ (exists s m e, Prim2SF a = S754_finite s m e).
Proof.
  unfold is_finite, is_nan, is_infinity. rewrite !FloatAxioms.eqb_spec, abs_spec.
  destruct (Prim2SF a) as [s | s | | s m e]; eauto.
  - destruct s; discriminate.
  - discriminate.
Qed.

Lemma sub_diag_finite (a : float) : is_finite a = true -> a - a = 0.
Proof.
  intros Hfin. apply Prim2SF_inj. rewrite sub_spec. unfold SF64sub.
  destruct (finite_class a Hfin) as [(s & ->) | (s & m & e & ->)].
  - destruct s; reflexivity.
  - cbn [SFsub]. rewrite Z.sub_diag. reflexivity.
Qed.

(** X11.  A point whose three coordinates are finite is at distance 0 from
    itself. *)
Theorem distance_to_itself (M : GoMath) (HM : GoMathSpec M) (x y z : float) :
  is_finite x = true -> is_finite y = true -> is_finite z = true ->
  distance x y z x y z = 0.
Proof.
  intros Hx Hy Hz. unfold distance.
  rewrite (sub_diag_finite x Hx), (sub_diag_finite y Hy), (sub_diag_finite z Hz).
  rewrite (Pow_two 0) by reflexivity. reflexivity.
Qed.

Lemma distance_to_itself_witness :
  @distance taylorMath 6378137 (-2.5) 0 6378137 (-2.5) 0 = 0.
Proof.
  apply (distance_to_itself taylorMath taylorMath_spec); reflexivity.
Defined.

(** ** An empty sky, end to end *)

Lemma mapIndex_absent (m : list (string * string)) (key : string) :
  Forall (fun kv => String.eqb (fst kv) key = false) m -> mapIndex m key = "".
Proof.
  induction 1 as [| [k v] m Hk _ IH]; [reflexivity |].
  cbn [mapIndex]. cbn [fst] in Hk. now rewrite Hk.
Qed.

(** X12.  A GET answered by a feed that holds no flight entry (only the
    bookkeeping keys, or nothing).  [src/main.go] answers 200 with the line
    built from the zero record, which is two spaces, [from], two spaces,
    [to] and a space when no table has a row for the empty code.
    [src/unnamed/part_000] goes on to ask the click handler about the empty
    identifier: when that request fails the process ends, and otherwise the
    answer is 200 with the line formatted from the details decoded from the
    click handler's own body, [No aircraft found nearby] when the four of
    them are empty. *)
Theorem handler_empty_sky (M : GoMath) (W : World) (r : request) :
  Method r = "GET" ->
  let longitude := fst (ParseFloat (queryGet (Query r) "longitude")) in
  let latitude := fst (ParseFloat (queryGet (Query r) "latitude")) in
  (forall body m,
      httpGet (feedURL (latitude + MainGo.latitudeDelta)
                       (latitude - MainGo.latitudeDelta)
                       (longitude - MainGo.latitudeDelta * Cos latitude)
                       (longitude + MainGo.latitudeDelta * Cos latitude)) = Ok body ->
      fst (Unmarshal body) = VMap m ->
      flightEntries m = [] ->
      Forall (fun kv => String.eqb (fst kv) "" = false) icaoAirlines ->
      Forall (fun kv => String.eqb (fst kv) "" = false) icaoTypes ->
      Forall (fun kv => String.eqb (fst kv) "" = false) iataAirports ->
      MainGo.handler r = Ok {| Status := 200; Body := "  from  to " |}) /\
  (forall body m,
      httpGet (feedURL (latitude + Part0.latitudeDelta)
                       (latitude - Part0.latitudeDelta)
                       (longitude - Part0.latitudeDelta * Cos latitude)
                       (longitude + Part0.latitudeDelta * Cos latitude)) = Ok body ->
      fst (Unmarshal body) = VMap m ->
      flightEntries m = [] ->
      (httpGet "https://data-live.flightradar24.com/clickhandler/?flight=" = Fatal ->
       Part0.handler r = Fatal) /\
      (forall answer,
          httpGet "https://data-live.flightradar24.com/clickhandler/?flight=" =
            Ok answer ->
          let details := fst (UnmarshalDetails answer) in
          Part0.handler r =
            Ok {| Status := 200;
                  Body := Part0.orNoAircraft
                            (Part0.formatDetails
                               (AirlineName details) (AircraftModelText details)
                               (AirportOriginName details)
                               (AirportDestinationName details)) |} /\
          (details = noDetails ->
           Part0.handler r =
             Ok {| Status := 200; Body := "No aircraft found nearby" |}))).
Proof.
  intros Hget longitude latitude. split.
  - intros body m Hfeed Hmap Hempty Ha Ht Hp. unfold MainGo.handler. rewrite Hget.
    change (String.eqb "GET" "GET") with true. cbv iota zeta.
    fold longitude latitude. unfold MainGo.getClosestPlane.
    destruct (pointToCartesian _ _ _) as [[x y] z].
    unfold MainGo.getFlights. cbv zeta. rewrite Hfeed. cbn [bind].
    unfold MainGo.parseFlightsJSON. rewrite Hmap, MainGo_decodeFlights_map, Hempty.
    cbn [MainGo.rangeFlights bind]. unfold MainGo.closest, scan. cbn [fold_left snd].
    unfold MainGo.formatFlight. cbn [MainGo.zero MainGo.icaoAirline MainGo.icaoType
      MainGo.iataDeparting MainGo.iataArriving].
    rewrite (mapIndex_absent _ _ Ha), (mapIndex_absent _ _ Ht), (mapIndex_absent _ _ Hp).
    reflexivity.
  - intros body m Hfeed Hmap Hempty.
    assert (Hsel : Part0.handler r =
                   (response <- Part0.formatFlight "" ;;
                    Ok (Fprint (Part0.orNoAircraft response)))).
    { unfold Part0.handler. rewrite Hget.
      change (String.eqb "GET" "GET") with true. cbv iota zeta.
      fold longitude latitude. unfold Part0.getClosestFlight.
      destruct (pointToCartesian _ _ _) as [[x y] z].
      unfold Part0.getFlights. cbv zeta. rewrite Hfeed. cbn [bind].
      unfold Part0.parseFlightsJSON. rewrite Hmap, Part0_decodeFlights_map, Hempty.
      reflexivity. }
    rewrite Hsel. unfold Part0.formatFlight, Part0.getFlightDetails.
    change ("https://data-live.flightradar24.com/clickhandler/?flight=" ++ "")
      with "https://data-live.flightradar24.com/clickhandler/?flight=".
    split.
    + intros Hdown. rewrite Hdown. reflexivity.
    + intros answer Hanswer. cbv zeta. rewrite Hanswer. cbn [bind].
      unfold Part0.parseFlightDetailsJSON.
      split; [reflexivity |]. intros ->. reflexivity.
Qed.

Lemma handler_empty_sky_witness :
  @MainGo.handler taylorMath (twoServers ghostDetails) bareGet =
    Ok {| Status := 200; Body := "  from  to " |} /\
  @Part0.handler taylorMath (twoServers ghostDetails) bareGet =
    Ok {| Status := 200; Body := "KLM Boeing 737-800  to Amsterdam Schiphol" |} /\
  @Part0.handler taylorMath (twoServers noDetails) bareGet =
    Ok {| Status := 200; Body := "No aircraft found nearby" |}.
Proof.
  destruct (handler_empty_sky taylorMath (twoServers ghostDetails) bareGet eq_refl)
    as [Hmain Hpart].
  destruct (handler_empty_sky taylorMath (twoServers noDetails) bareGet eq_refl)
    as [_ Hnone].
  split; [| split].
  - apply (Hmain [] [("full_count", VFloat64 0); ("version", VFloat64 4)]);
      try reflexivity; repeat constructor.
  - exact (proj1 (proj2 (Hpart [] _ eq_refl eq_refl eq_refl) [Byte.x7b] eq_refl)).
  - exact (proj2 (proj2 (Hnone [] _ eq_refl eq_refl eq_refl) [Byte.x7b] eq_refl) eq_refl).
Defined.

(** X13.  [src/unnamed/part_000] never answers a GET with the blank line of
    three spaces: whenever its handler returns, the body is another
    string. *)
Theorem handler_never_blank (M : GoMath) (W : World) (r : request) (resp : response) :
  Method r = "GET" ->
  Part0.handler r = Ok resp ->
  Body resp <> "   ".
Proof.
  intros Hget H. unfold Part0.handler in H. rewrite Hget in H.
  change (String.eqb "GET" "GET") with true in H. cbv iota zeta in H.
  destruct (Part0.getClosestFlight _ _ _) as [flight | |]; try discriminate H.
  cbn [bind] in H.
  destruct (Part0.formatFlight (Part0.fr24id flight)) as [line | |]; try discriminate H.
  cbn [bind] in H. injection H as <-. cbn [Body Fprint]. unfold Part0.orNoAircraft.
  destruct (String.eqb_spec line "   ") as [-> | Hne]; [discriminate | exact Hne].
Qed.

Lemma handler_never_blank_witness :
  "No aircraft found nearby" <> "   ".
Proof.
  exact (handler_never_blank taylorMath emptySky bareGet
           {| Status := 200; Body := "No aircraft found nearby" |} eq_refl eq_refl).
Defined.

(** ** The order in which the map is visited *)

Lemma Forall2_Permutation {A B : Type} (R : A -> B -> Prop) (l l' : list A) :
  Permutation l l' ->
  forall fl, Forall2 R l fl ->
             exists fl', Forall2 R l' fl' /\ Permutation fl fl'.
Proof.
  induction 1 as [| a l l' _ IH | a b l | l l' l'' _ IH1 _ IH2]; intros fl H2.
  - inversion H2; subst. exists []. split; constructor.
  - inversion H2 as [| ? y ? fl0 Hy H0]; subst.
    destruct (IH fl0 H0) as (fl' & H' & Hp).
    exists (y :: fl'). split; constructor; assumption.
  - inversion H2 as [| ? y1 ? fl1 Hy1 H1]; subst.
    inversion H1 as [| ? y2 ? fl0 Hy2 H0]; subst.
    exists (y2 :: y1 :: fl0). split; [repeat constructor; assumption | apply perm_swap].
  - destruct (IH1 fl H2) as (fl' & H' & Hp).
    destruct (IH2 fl' H') as (fl'' & H'' & Hp').
    exists fl''. split; [assumption | eapply Permutation_trans; eassumption].
Qed.

Lemma Permutation_flightEntries (m m' : list (string * value)) :
  Permutation m m' -> Permutation (flightEntries m) (flightEntries m').
Proof. apply Permutation_filter. Qed.

(** X14.  Visiting the map in another order changes the decoded list by a
    permutation and nothing else: a batch that decodes in one order decodes
    in every order, to the same flights. *)
Theorem decodeFlights_any_order (m m' : list (string * value)) :
  Permutation m m' ->
  (forall flights,
      MainGo.decodeFlights (VMap m) = Ok flights ->
      exists flights', MainGo.decodeFlights (VMap m') = Ok flights' /\
                       Permutation flights flights') /\
  (forall flights,
      Part0.decodeFlights (VMap m) = Ok flights ->
      exists flights', Part0.decodeFlights (VMap m') = Ok flights' /\
                       Permutation flights flights').
Proof.
  intros Hperm. apply Permutation_flightEntries in Hperm.
  destruct (decodeFlights_Forall2 m) as [Hm Hp].
  destruct (decodeFlights_Forall2 m') as [Hm' Hp'].
  split; intros flights H.
  - apply Hm in H. destruct (Forall2_Permutation _ _ _ Hperm _ H) as (fl' & H' & Hpf).
    exists fl'. split; [apply Hm'; exact H' | exact Hpf].
  - apply Hp in H. destruct (Forall2_Permutation _ _ _ Hperm _ H) as (fl' & H' & Hpf).
    exists fl'. split; [apply Hp'; exact H' | exact Hpf].
Qed.

Lemma decodeFlights_any_order_witness :
  exists flights',
    Part0.decodeFlights (VMap (rev goodBatch)) = Ok flights' /\
    Permutation
      [{| Part0.fr24id := "2d1e1f2a"; Part0.longitude := -0.45;
          Part0.latitude := 51.47; Part0.altitude := 3500 |};
       {| Part0.fr24id := "2d1e1f2c"; Part0.longitude := -0.45;
          Part0.latitude := 51.47; Part0.altitude := 3500 |}]
      flights'.
Proof.
  exact (proj2 (decodeFlights_any_order goodBatch (rev goodBatch)
                  (Permutation_rev goodBatch)) _ eq_refl).
Defined.

Section ScanOrder.
Context {M : GoMath} {flight : Type}.
Variables (longitudeOf latitudeOf : flight -> float) (altitudeOf : flight -> Z).
Variables (x y z : float) (zero : flight).

Let dist : flight -> float := distanceToFlight longitudeOf latitudeOf altitudeOf x y z.

Lemma scan_any_order (flights flights' : list flight) :
  Permutation flights flights' ->
  noTies longitudeOf latitudeOf altitudeOf x y z flights ->
  scan longitudeOf latitudeOf altitudeOf x y z zero flights =
  scan longitudeOf latitudeOf altitudeOf x y z zero flights'.
Proof.
  intros Hperm Hties.
  destruct (Forall_Exists_dec (fun f => (dist f <? Inf) = false)
              (fun f => bool_dec (dist f <? Inf) false) flights) as [Hnone | Hsome].
  - rewrite (scan_none _ _ _ _ _ _ zero flights Hnone).
    symmetry. apply scan_none.
    eapply Permutation_Forall; [exact Hperm | exact Hnone].
  - assert (Hex : Exists (fun f => (dist f <? Inf) = true) flights).
    { eapply Exists_impl; [| exact Hsome]. intros f Hf. cbv beta in Hf.
      destruct (dist f <? Inf); [reflexivity | contradiction]. }
    assert (Hex' : Exists (fun f => (dist f <? Inf) = true) flights').
    { apply Exists_exists in Hex as (f & Hin & Hf). apply Exists_exists.
      exists f. split; [eapply Permutation_in; eassumption | exact Hf]. }
    destruct (scan_first_min _ _ _ _ _ _ zero flights Hex)
      as (pre & post & Hs & Hfin & Hpre & Hpost).
    destruct (scan_first_min _ _ _ _ _ _ zero flights' Hex')
      as (pre' & post' & Hs' & Hfin' & Hpre' & Hpost').
    cbv zeta in *. fold dist in Hfin, Hpre, Hpost, Hfin', Hpre', Hpost'.
    set (r := scan longitudeOf latitudeOf altitudeOf x y z zero flights) in *.
    set (r' := scan longitudeOf latitudeOf altitudeOf x y z zero flights') in *.
    assert (Hall : forall l p q c, l = (p ++ c :: q)%list ->
              Forall (fun f => (dist f <=? dist c) = false) p ->
              Forall (fun f => (dist f <? dist c) = false) q ->
              forall f, In f l -> (dist f <? dist c) = false).
    { intros l p q c -> Hp Hq f Hin. apply in_app_or in Hin as [Hin | [<- | Hin]].
      - rewrite Forall_forall in Hp. specialize (Hp f Hin).
        destruct (dist f <? dist c) eqn:E; [| reflexivity].
        rewrite (ltb_leb _ _ E) in Hp. discriminate.
      - apply ltb_irrefl.
      - rewrite Forall_forall in Hq. apply Hq, Hin. }
    assert (Hr : In r flights).
    { pose proof (in_elt r pre post) as Hin. rewrite <- Hs in Hin. exact Hin. }
    assert (Hr' : In r' flights).
    { apply (Permutation_in _ (Permutation_sym Hperm)).
      pose proof (in_elt r' pre' post') as Hin. rewrite <- Hs' in Hin. exact Hin. }
    apply Hties; trivial; fold dist.
    + apply (Hall flights' pre' post' r' Hs' Hpre' Hpost').
      eapply Permutation_in; eassumption.
    + apply (Hall flights pre post r Hs Hpre Hpost). exact Hr'.
Qed.

End ScanOrder.

(** X15.  Among candidates of which no two within reach tie (of any two,
    one is strictly closer), the selection does not depend on the order of
    the list: both selectors return the same flight on every permutation of
    the candidates, so on every order in which the feed's map was
    visited. *)
Theorem closest_any_order (M : GoMath) (x y z : float) :
  (forall flights flights' : list MainGo.flightData,
      Permutation flights flights' ->
      noTies MainGo.longitude MainGo.latitude MainGo.altitude x y z flights ->
      MainGo.closest x y z flights = MainGo.closest x y z flights') /\
  (forall flights flights' : list Part0.flightPosition,
      Permutation flights flights' ->
      noTies Part0.longitude Part0.latitude Part0.altitude x y z flights ->
      Part0.closest x y z flights = Part0.closest x y z flights').
Proof. split; intros flights flights'; apply scan_any_order. Qed.

Lemma closest_any_order_witness :
  @MainGo.closest taylorMath 6378137 0 0 threePlanes =
  @MainGo.closest taylorMath 6378137 0 0 (rev threePlanes).
Proof.
  apply (proj1 (closest_any_order taylorMath 6378137 0 0)).
  - apply Permutation_rev.
  - intros f g Hf Hg _ _ Hfg Hgf.
    destruct Hf as [<- | [<- | [<- | []]]]; destruct Hg as [<- | [<- | [<- | []]]];
      try reflexivity; vm_compute in Hfg, Hgf; discriminate.
Defined.
